(** * Seoul Metro board monitor: a shallow embedding of [monitor.py]

    The script fetches a notice board, parses its rows into posts, keeps the
    posts dated today whose title holds a keyword, and sends each of them to
    a webhook.  This file embeds the class [SeoulMetroMonitor] and the
    start-up block of the script, and proves properties of them.

    Conventions of the embedding:
    - a Python [str] is the list of its code points ([pystr]); [len] is
      [length], [s1 + s2] is [++], [sub in s] is [contains s sub];
    - what Python's Unicode tables and the libraries [bs4] and [requests]
      compute is not code of the script: the case mapping [str.lower], the
      digit property behind [str.isdigit] and the HTML parser are the fields
      of the class [Runtime]; the clock and the network are oracles held in
      the [world] the script runs in;
    - console output ([print]) is assumed to succeed and is not recorded. *)

From Stdlib Require Import List NArith ZArith Bool Ascii String Lia Arith.
Import ListNotations.

Local Open Scope list_scope.

(** ** Python strings *)

Module Py.

(** A [str]: the sequence of its Unicode code points. *)
Definition pystr := list N.

(** Decoding of the UTF-8 bytes of a source literal into code points. *)
Fixpoint utf8_decode (bs : list N) : pystr :=
  match bs with
  | [] => []
  | b0 :: r0 =>
    if (b0 <? 128)%N then b0 :: utf8_decode r0
    else
      match r0 with
      | [] => []
      | b1 :: r1 =>
        if (b0 <? 224)%N then
          ((b0 mod 32) * 64 + b1 mod 64)%N :: utf8_decode r1
        else
          match r1 with
          | [] => []
          | b2 :: r2 =>
            if (b0 <? 240)%N then
              (((b0 mod 16) * 64 + b1 mod 64) * 64 + b2 mod 64)%N
                :: utf8_decode r2
            else
              match r2 with
              | [] => []
              | b3 :: r3 =>
                ((((b0 mod 8) * 64 + b1 mod 64) * 64 + b2 mod 64) * 64
                 + b3 mod 64)%N :: utf8_decode r3
              end
          end
      end
  end.

(** The [str] written by a literal of the source file. *)
Definition lit (s : string) : pystr :=
  utf8_decode (map N_of_ascii (list_ascii_of_string s)).

(** Truth value of a [str]: [bool(s)], false exactly for the empty one. *)
Definition truthy (s : pystr) : bool :=
  match s with [] => false | _ :: _ => true end.

(** [s.startswith(prefix)]. *)
Fixpoint startswith (s prefix : pystr) : bool :=
  match prefix, s with
  | [], _ => true
  | _ :: _, [] => false
  | p :: prefix', c :: s' => (p =? c)%N && startswith s' prefix'
  end.

(** [sub in s]: [sub] occurs in [s] as a contiguous run. *)
Fixpoint contains (s sub : pystr) : bool :=
  startswith s sub ||
  match s with
  | [] => false
  | _ :: s' => contains s' sub
  end.

(** The mathematical notion behind [in]: [sub] is a factor of [s]. *)
Definition substring (sub s : pystr) : Prop :=
  exists before after, s = before ++ sub ++ after.

End Py.
Import Py.

(** Code points that have no case and are no digit: the space and the
    precomposed Hangul syllables U+AC00..U+D7A3. *)
Definition hangul_or_space (c : N) : bool :=
  (c =? 32)%N || ((44032 <=? c)%N && (c <=? 55203)%N).

(** ** The monitor object *)

Record SeoulMetroMonitor := {
  url : pystr;
  webhook_url : pystr;
  keywords : list pystr
}.

(** The two literals of [__init__], as code points. *)
Definition board_url : pystr :=
  Eval vm_compute in
    lit "http://www.seoulmetro.co.kr/kr/board.do?menuIdx=546".

Definition configured_keywords : list pystr :=
  Eval vm_compute in
    [ lit "특정 장애인 단체 집회시위"; lit "장애인"; lit "집회"; lit "시위" ].

(** [SeoulMetroMonitor.__init__]. *)
Definition init (webhook_url : pystr) : SeoulMetroMonitor :=
  {| url := board_url;
     webhook_url := webhook_url;
     keywords := configured_keywords |}.

(** ** Dates and times *)

(** A [datetime] value, field by field. *)
Record datetime := {
  year : N; month : N; day : N;
  hour : N; minute : N; second : N; microsecond : N
}.

(** The decimal digit of the units of [n], as a code point. *)
Definition digit (n : N) : N := (48 + n mod 10)%N.

Definition pad2 (n : N) : pystr := [digit (n / 10); digit n].
Definition pad4 (n : N) : pystr :=
  [digit (n / 1000); digit (n / 100); digit (n / 10); digit n].
Definition pad6 (n : N) : pystr :=
  [digit (n / 100000); digit (n / 10000); digit (n / 1000);
   digit (n / 100); digit (n / 10); digit n].

(** [d.strftime('%Y-%m-%d')], with the year on four digits as the Python
    documentation gives it. *)
Definition strftime_Ymd (d : datetime) : pystr :=
  pad4 (year d) ++ lit "-" ++ pad2 (month d) ++ lit "-" ++ pad2 (day d).

(** [d.isoformat()]: the fraction is left out when it is zero. *)
Definition isoformat (d : datetime) : pystr :=
  strftime_Ymd d ++ lit "T" ++ pad2 (hour d) ++ lit ":" ++ pad2 (minute d)
  ++ lit ":" ++ pad2 (second d)
  ++ (if (microsecond d =? 0)%N then [] else lit "." ++ pad6 (microsecond d)).

(** A calendar date whose year has four digits: there every platform's
    [%Y] gives the same text. *)
Definition four_digit_date (d : datetime) : Prop :=
  (1000 <= year d <= 9999)%N /\ (1 <= month d <= 12)%N /\ (1 <= day d <= 31)%N.

(** ** Values that reach [is_today_post] *)

(** The Python values the membership test [today in date_str] is tried on:
    a [str], [None] or an [int]. *)
Inductive pyval :=
| VStr (s : pystr)
| VNone
| VInt (z : Z).

(** [x in container] for a [str] [x]; [None] stands for the [TypeError]
    Python raises when the right operand is no container, [Some b] for the
    truth value otherwise. *)
Definition py_in (x : pystr) (container : pyval) : option bool :=
  match container with
  | VStr s => Some (contains s x)
  | VNone | VInt _ => None
  end.

(** ** Posts, payloads and the outside world *)

(** The dict appended to [posts]: keys ['title'], ['date'], ['link']. *)
Record post := { title : pystr; date : pystr; link : pystr }.

(** The JSON object sent to the webhook. *)
Record payload := {
  json_title : pystr;
  json_date : pystr;
  json_link : pystr;
  json_keyword : option pystr;
  json_message : pystr;
  json_timestamp : pystr
}.

(** What [requests] sends: [requests.get(url, ...)] and
    [requests.post(url, json=payload, ...)].  Headers and the timeout of 30
    seconds are fixed by the script and left out. *)
Inductive request :=
| GET (u : pystr)
| POST (u : pystr) (json : payload).

(** What comes back: the status code and the body decoded as UTF-8. *)
Record response := { status_code : Z; text : pystr }.

(** The call log of a run. *)
Inductive event :=
| Request (r : request)
| Call_is_today_post (date_str : pystr) (result : bool)
| Call_check_keywords (title : pystr) (result : bool * option pystr)
| Call_send_webhook (post_info : post) (matched_keyword : option pystr).

(** The world a run lives in.  [clock n] is the value of the [n]-th call of
    [datetime.now()], [ticks] counts the calls made; [network] answers a
    request from the log so far, [None] standing for an exception raised by
    [requests] (DNS, refused connection, timeout); [trace] is the log, oldest
    event first. *)
Record world := {
  clock : nat -> datetime;
  ticks : nat;
  network : list event -> request -> option response;
  trace : list event
}.

(** Exceptions that leave a function of the script. *)
Inductive exn :=
| ParserRejectedMarkup
| SystemExit (code : Z).

Inductive outcome (A : Type) :=
| Ret (a : A)
| Raise (e : exn).
Arguments Ret {A} a.
Arguments Raise {A} e.

(** Computations of the script: they read and change the world and end
    with a value or an exception. *)
Definition M (A : Type) : Type := world -> outcome A * world.

Definition ret {A} (a : A) : M A := fun w => (Ret a, w).

Definition bind {A B} (m : M A) (f : A -> M B) : M B :=
  fun w =>
    match m w with
    | (Ret a, w') => f a w'
    | (Raise e, w') => (Raise e, w')
    end.

Definition raise {A} (e : exn) : M A := fun w => (Raise e, w).

Declare Scope py_scope.
Delimit Scope py_scope with py.
Notation "x <- c1 ;; c2" := (bind c1 (fun x => c2))
  (at level 100, c1 at next level, right associativity) : py_scope.
Notation "c1 ;; c2" := (bind c1 (fun _ => c2))
  (at level 100, right associativity) : py_scope.
Local Open Scope py_scope.

(** [datetime.now()]. *)
Definition now : M datetime :=
  fun w =>
    (Ret (clock w (ticks w)),
     {| clock := clock w; ticks := S (ticks w);
        network := network w; trace := trace w |}).

(** Appends an event to the log. *)
Definition log (e : event) : M unit :=
  fun w =>
    (Ret tt,
     {| clock := clock w; ticks := ticks w;
        network := network w; trace := trace w ++ [e] |}).

(** One HTTP exchange through [requests]: the request is logged and the
    network answers it. *)
Definition http (r : request) : M (option response) :=
  fun w =>
    (Ret (network w (trace w) r),
     {| clock := clock w; ticks := ticks w;
        network := network w; trace := trace w ++ [Request r] |}).

(** ** The parsed document *)

(** A table cell as the parser looks at it: [cell.get_text(strip=True)] and
    [cell.find('a')], the latter with the anchor's [.get('href')]. *)
Record cell := {
  get_text : pystr;
  find_a : option (option pystr)
}.

(** A row, through [row.find_all(['td', 'th'])]. *)
Definition row := list cell.

(** A [BeautifulSoup] object, through the two queries the script makes. *)
Record soup := {
  select : string -> list row;
  find_all_tr : list row
}.

Definition possible_selectors : list string :=
  [ "table tr"; ".board-list tr"; "#board-list tr"; "tbody tr" ]%string.

Definition base_origin : pystr :=
  Eval vm_compute in lit "http://www.seoulmetro.co.kr".

(** The [for selector in possible_selectors] loop: [rows] keeps the last
    answer, and the loop stops at the first non-empty one. *)
Fixpoint select_rows (s : soup) (selectors : list string) (rows : list row)
  : list row :=
  match selectors with
  | [] => rows
  | selector :: rest =>
    let rows := select s selector in
    match rows with
    | _ :: _ => rows
    | [] => select_rows s rest rows
    end
  end.

(** [any(char in cell_text for char in ['-', '.', '/'])]. *)
Definition has_separator (cell_text : pystr) : bool :=
  existsb (fun char => contains cell_text char) [lit "-"; lit "."; lit "/"].

(** The [for cell in reversed(cells)] loop; it is run on [rev cells]. *)
Fixpoint date_loop (cells : list cell) (date_str : pystr) : pystr :=
  match cells with
  | [] => date_str
  | cell :: rest =>
    let cell_text := get_text cell in
    if has_separator cell_text then
      if (8 <=? List.length cell_text)%nat then cell_text
      else date_loop rest date_str
    else date_loop rest date_str
  end.

(** ** What the Python runtime and [bs4] supply *)

(** [lower] is [str.lower], the Unicode lower-casing of a whole string (it
    is no map over characters: the Greek final sigma depends on its
    context).  [isdigit_char] tells the characters [str.isdigit] accepts.
    [BeautifulSoup html] is [BeautifulSoup(html, 'html.parser')]; [None]
    stands for the exception the constructor raises on markup its parser
    rejects. *)
Class Runtime := {
  lower : pystr -> pystr;
  isdigit_char : N -> bool;
  BeautifulSoup : pystr -> option soup
}.

Section Monitor.

Context {R : Runtime}.

(** [s.isdigit()]: at least one character, and every character a digit. *)
Definition isdigit (s : pystr) : bool :=
  truthy s && forallb isdigit_char s.

(** ** [fetch_board_content] *)

Definition fetch_board_content (self : SeoulMetroMonitor)
  : M (option pystr) :=
  r <- http (GET (url self)) ;;
  match r with
  | Some response =>
    if (status_code response =? 200)%Z then ret (Some (text response))
    else ret None
  | None => ret None
  end.

(** ** [parse_board_posts] *)

(** The [for i, cell in enumerate(cells)] loop with its [break]; [title]
    and [link] are the variables of the same names. *)
Fixpoint title_loop (cells : list cell) (title link : pystr)
  : pystr * pystr :=
  match cells with
  | [] => (title, link)
  | cell :: rest =>
    let cell_text := get_text cell in
    if (5 <? List.length cell_text)%nat && negb (isdigit cell_text) then
      let title := cell_text in
      match find_a cell with
      | Some (Some href) =>
        if truthy href then
          if negb (startswith href (lit "http"))
          then (title, base_origin ++ href)
          else (title, href)
        else (title, link)
      | _ => (title, link)
      end
    else title_loop rest title link
  end.

(** The body of [for row in rows]: [None] when the row adds no post. *)
Definition parse_row (cells : row) : M (option post) :=
  if (3 <=? List.length cells)%nat then
    let '(title, link) := title_loop cells [] [] in
    if negb (truthy title) then ret None
    else
      let date_str := date_loop (rev cells) [] in
      date_str <-
        (if negb (truthy date_str)
         then (d <- now ;; ret (strftime_Ymd d))
         else ret date_str) ;;
      ret (Some {| title := title; date := date_str; link := link |})
  else ret None.

Fixpoint rows_loop (rows : list row) (posts : list post) : M (list post) :=
  match rows with
  | [] => ret posts
  | cells :: rest =>
    r <- parse_row cells ;;
    match r with
    | Some p => rows_loop rest (posts ++ [p])
    | None => rows_loop rest posts
    end
  end.

Definition parse_board_posts (html_content : option pystr)
  : M (list post) :=
  match html_content with
  | None => ret []
  | Some html =>
    if negb (truthy html) then ret []
    else
      match BeautifulSoup html with
      | None => raise ParserRejectedMarkup
      | Some soup =>
        let rows := select_rows soup possible_selectors [] in
        let rows :=
          match rows with
          | [] => find_all_tr soup
          | _ :: _ => rows
          end in
        rows_loop rows []
      end
  end.

(** ** [check_keywords] *)

(** The [for keyword in self.keywords] loop. *)
Fixpoint check_keywords_loop (title_lower : pystr) (kws : list pystr)
  : bool * option pystr :=
  match kws with
  | [] => (false, None)
  | keyword :: rest =>
    if contains title_lower (lower keyword)
    then (true, Some keyword)
    else check_keywords_loop title_lower rest
  end.

Definition check_keywords (self : SeoulMetroMonitor) (title : pystr)
  : bool * option pystr :=
  let title_lower := lower title in
  check_keywords_loop title_lower (keywords self).

(** ** [is_today_post] *)

(** The [try] block reads the clock and tests membership; the bare
    [except] turns the [TypeError] of the test into [False]. *)
Definition is_today_post (date_str : pyval) : M bool :=
  d <- now ;;
  let today := strftime_Ymd d in
  match py_in today date_str with
  | Some b => ret b
  | None => ret false
  end.

(** ** [send_webhook] *)

(** How an f-string shows a keyword that may be [None]. *)
Definition format_keyword (k : option pystr) : pystr :=
  match k with Some s => s | None => lit "None" end.

(** The dict [payload], given the clock reading put in its timestamp. *)
Definition build_payload (post_info : post) (matched_keyword : option pystr)
  (d : datetime) : payload :=
  {| json_title := title post_info;
     json_date := date post_info;
     json_link := link post_info;
     json_keyword := matched_keyword;
     json_message :=
       lit "키워드 '" ++ format_keyword matched_keyword
       ++ lit "' 매칭: " ++ title post_info;
     json_timestamp := isoformat d |}.

Definition send_webhook (self : SeoulMetroMonitor) (post_info : post)
  (matched_keyword : option pystr) : M bool :=
  d <- now ;;
  let payload := build_payload post_info matched_keyword d in
  r <- http (POST (webhook_url self) payload) ;;
  match r with
  | Some response =>
    if (status_code response =? 200)%Z then ret true else ret false
  | None => ret false
  end.

(** ** [monitor_posts] *)

(** The [for post in posts] loop with its two counters.  Each call of
    [is_today_post], [check_keywords] and [send_webhook] is written to the
    log where it is made. *)
Fixpoint posts_loop (self : SeoulMetroMonitor) (posts : list post)
  (notifications_sent today_posts_count : nat) : M (nat * nat) :=
  match posts with
  | [] => ret (notifications_sent, today_posts_count)
  | post :: rest =>
    today <- is_today_post (VStr (date post)) ;;
    log (Call_is_today_post (date post) today) ;;
    if negb today then
      posts_loop self rest notifications_sent today_posts_count
    else
      let today_posts_count := S today_posts_count in
      let '(has_keyword, matched_keyword) :=
        check_keywords self (title post) in
      log (Call_check_keywords (title post) (has_keyword, matched_keyword)) ;;
      if has_keyword then
        log (Call_send_webhook post matched_keyword) ;;
        sent <- send_webhook self post matched_keyword ;;
        if sent then
          posts_loop self rest (S notifications_sent) today_posts_count
        else posts_loop self rest notifications_sent today_posts_count
      else posts_loop self rest notifications_sent today_posts_count
  end.

(** [not html_content] for a value that is a [str] or [None]. *)
Definition no_content (html_content : option pystr) : bool :=
  match html_content with
  | None => true
  | Some html => negb (truthy html)
  end.

(** The first line printed holds a clock reading; the other lines printed
    hold none. *)
Definition monitor_posts (self : SeoulMetroMonitor) : M unit :=
  now ;;
  html_content <- fetch_board_content self ;;
  if no_content html_content then ret tt
  else
    posts <- parse_board_posts html_content ;;
    match posts with
    | [] => ret tt
    | _ :: _ =>
      posts_loop self posts 0 0 ;;
      ret tt
    end.

(** ** The start-up block *)

(** [environ_WEBHOOK_URL] is [os.environ.get('WEBHOOK_URL')]; [exit(1)]
    raises [SystemExit(1)]. *)
Definition main (environ_WEBHOOK_URL : option pystr) : M unit :=
  match environ_WEBHOOK_URL with
  | None => raise (SystemExit 1)
  | Some webhook_url =>
    if negb (truthy webhook_url) then raise (SystemExit 1)
    else monitor_posts (init webhook_url)
  end.

End Monitor.

(** The exit status of the interpreter: 0 when the script runs off its end,
    the code of a [SystemExit], 1 for any other uncaught exception. *)
Definition exit_code (o : outcome unit) : Z :=
  match o with
  | Ret _ => 0
  | Raise (SystemExit code) => code
  | Raise ParserRejectedMarkup => 1
  end.

(** ** A small runtime to compute with *)

(** A lower-casing that moves only the ASCII capitals; it agrees with
    [str.lower] on every string of ASCII, Hangul and spaces. *)
Definition ascii_lower (s : pystr) : pystr :=
  map (fun c => if ((65 <=? c) && (c <=? 90))%N then (c + 32)%N else c) s.

(** The digits [0]..[9]. *)
Definition ascii_isdigit_char (c : N) : bool :=
  ((48 <=? c) && (c <=? 57))%N.

(** A parser that finds one table of the rows [rows] in any markup. *)
Definition one_table (rows : list row) : soup :=
  {| select := fun selector =>
       if String.eqb selector "table tr" then rows else [];
     find_all_tr := rows |}.

Definition sample_runtime (rows : list row) : Runtime :=
  {| lower := ascii_lower;
     isdigit_char := ascii_isdigit_char;
     BeautifulSoup := fun _ => Some (one_table rows) |}.

(** A cell holding text and no anchor. *)
Definition text_cell (s : pystr) : cell :=
  {| get_text := s; find_a := None |}.

Definition sample_datetime (y m d : N) : datetime :=
  {| year := y; month := m; day := d;
     hour := 9; minute := 30; second := 0; microsecond := 0 |}.

(** A world whose clock stands at the given date, whose board answers
    [board] and whose webhook answers [hook]; nothing is logged yet. *)
Definition sample_world (today : datetime) (board hook : option response)
  : world :=
  {| clock := fun _ => today;
     ticks := 0;
     network := fun _ r =>
       match r with GET _ => board | POST _ _ => hook end;
     trace := [] |}.

(** The world after one more reading of the clock. *)
Definition tick (w : world) : world :=
  {| clock := clock w; ticks := S (ticks w);
     network := network w; trace := trace w |}.

(** The world after one more event in the log. *)
Definition logged (e : event) (w : world) : world :=
  {| clock := clock w; ticks := ticks w;
     network := network w; trace := trace w ++ [e] |}.

(** ** The vocabulary of the specification *)

Section Vocabulary.

Context {R : Runtime}.

(** A text is purely numeric when it is not empty and made of digits. *)
Definition purely_numeric (s : pystr) : Prop :=
  s <> [] /\ Forall (fun c => isdigit_char c = true) s.

(** A text that can be a title: more than 5 characters, not purely
    numeric. *)
Definition title_like (s : pystr) : Prop :=
  (5 < List.length s)%nat /\ ~ purely_numeric s.

(** A text that can be a date: one of [-], [.], [/] occurs in it and it
    has at least 8 characters. *)
Definition date_like (s : pystr) : Prop :=
  (In 45%N s \/ In 46%N s \/ In 47%N s) /\ (8 <= List.length s)%nat.

(** An href made absolute: the site's origin is put before it unless it
    starts with [http]. *)
Definition resolve (href : pystr) : pystr :=
  if startswith href (lit "http") then href else base_origin ++ href.

(** [k] is the first keyword of [kws] that occurs in [title], case left
    aside: it stands at some index [i], and no keyword before [i] occurs. *)
Definition first_match (kws : list pystr) (title k : pystr) : Prop :=
  exists i,
    nth_error kws i = Some k /\
    substring (lower k) (lower title) /\
    forall j k', (j < i)%nat -> nth_error kws j = Some k' ->
                 ~ substring (lower k') (lower title).

(** What [parse_board_posts] promises of each post.  [today_texts] tells
    the texts the clock gave for today during the parse. *)
Definition post_invariant (today_texts : pystr -> Prop) (p : post) : Prop :=
  (title p <> [] /\ (5 < List.length (title p))%nat
   /\ ~ purely_numeric (title p))
  /\ (date p <> [] /\ (date_like (date p) \/ today_texts (date p)))
  /\ (link p = [] \/ startswith (link p) (lit "http") = true).

(** The test of the title loop and the two nested tests of the date loop,
    each as one boolean. *)
Definition title_test (s : pystr) : bool :=
  (5 <? List.length s)%nat && negb (isdigit s).

Definition date_test (s : pystr) : bool :=
  has_separator s && (8 <=? List.length s)%nat.

(** The log the loop of [monitor_posts] writes for a list of posts, post
    by post: a post whose date does not hold the date read from the clock
    leaves its today check and nothing else; a post of today leaves its
    today check and its keyword check; only a post of today with a keyword
    leaves, after these two, the call of [send_webhook] and its POST.
    [clk] is the clock of the run. *)
Inductive gated_log (self : SeoulMetroMonitor) (clk : nat -> datetime)
  : list post -> list event -> Prop :=
| gated_done : gated_log self clk [] []
| gated_not_today p ps t n :
    contains (date p) (strftime_Ymd (clk n)) = false ->
    gated_log self clk ps t ->
    gated_log self clk (p :: ps) (Call_is_today_post (date p) false :: t)
| gated_no_keyword p ps t n :
    contains (date p) (strftime_Ymd (clk n)) = true ->
    check_keywords self (title p) = (false, None) ->
    gated_log self clk ps t ->
    gated_log self clk (p :: ps)
      (Call_is_today_post (date p) true
       :: Call_check_keywords (title p) (false, None) :: t)
| gated_notified p ps t n m k :
    contains (date p) (strftime_Ymd (clk n)) = true ->
    check_keywords self (title p) = (true, Some k) ->
    gated_log self clk ps t ->
    gated_log self clk (p :: ps)
      (Call_is_today_post (date p) true
       :: Call_check_keywords (title p) (true, Some k)
       :: Call_send_webhook p (Some k)
       :: Request (POST (webhook_url self) (build_payload p (Some k) (clk m)))
       :: t).

(** The run found nothing to do and ended in [w']: the fetch gave no
    content, or the parse of what it gave returned no post. *)
Definition nothing_to_do (self : SeoulMetroMonitor) (w w' : world) : Prop :=
  let w1 := logged (Request (GET (url self))) (tick w) in
  (fetch_board_content self (tick w) = (Ret None, w1) /\ w' = w1)
  \/ (exists html,
         fetch_board_content self (tick w) = (Ret (Some html), w1)
         /\ parse_board_posts (Some html) w1 = (Ret [], w')).

End Vocabulary.

(** The texts [strftime('%Y-%m-%d')] gave for the clock readings numbered
    from [from] on and before [to]. *)
Definition read_between (clk : nat -> datetime) (from to : nat) (s : pystr)
  : Prop :=
  exists n, (from <= n < to)%nat /\ s = strftime_Ymd (clk n).

(** Hangul syllables and spaces are no digits for [str.isdigit]. *)
Definition hangul_no_digit (R : Runtime) : Prop :=
  forall c, hangul_or_space c = true -> isdigit_char c = false.

(** The link the title loop leaves for the title cell [c]: the resolved
    href of the cell's first anchor when that anchor has a non-empty href,
    and the empty text otherwise. *)
Definition link_of (c : cell) : pystr :=
  match find_a c with
  | Some (Some href) => if truthy href then resolve href else []
  | _ => []
  end.

(** Hangul syllables and spaces have no case: [str.lower] leaves a string
    made of them as it is. *)
Definition caseless_hangul (R : Runtime) : Prop :=
  forall s, forallb hangul_or_space s = true -> lower s = s.

(** [w'] is [w] after some readings of the clock and nothing else. *)
Definition only_clock_read (w w' : world) : Prop :=
  clock w' = clock w /\ network w' = network w /\ trace w' = trace w
  /\ (ticks w <= ticks w')%nat.

(** ** Vocabulary for rows, requests and counts *)

Definition nonempty {A} (l : list A) : bool :=
  match l with [] => false | _ :: _ => true end.

(** The first list of [candidates] that is not empty, the empty list when
    there is none. *)
Definition first_nonempty {A} (candidates : list (list A)) : list A :=
  match find nonempty candidates with
  | Some l => l
  | None => []
  end.

(** The answers the parser may take its rows from, in the order it asks:
    the four selectors, then [find_all('tr')]. *)
Definition row_candidates (s : soup) : list (list row) :=
  map (select s) possible_selectors ++ [find_all_tr s].

(** The JSON objects of the POSTs of a log, in order. *)
Definition posted (t : list event) : list payload :=
  flat_map (fun e => match e with
                     | Request (POST _ json) => [json]
                     | _ => []
                     end) t.

(** The number of today checks of a log that answered [True]. *)
Definition today_hits (t : list event) : nat :=
  List.length (filter (fun e => match e with
                                | Call_is_today_post _ true => true
                                | _ => false
                                end) t).

(** What a JSON object says of its post and keyword. *)
Definition summary (json : payload)
  : pystr * pystr * pystr * option pystr :=
  (json_title json, json_date json, json_link json, json_keyword json).

(** Two clock readings of the same calendar day. *)
Definition same_day (a b : datetime) : Prop :=
  year a = year b /\ month a = month b /\ day a = day b.

Section RowVocabulary.

Context {R : Runtime}.

(** The row has 3 cells at least and a cell fit for a title. *)
Definition has_title (cells : row) : bool :=
  (3 <=? List.length cells)%nat
  && existsb (fun c => title_test (get_text c)) cells.

(** The row has a cell fit for a date. *)
Definition has_date (cells : row) : bool :=
  existsb (fun c => date_test (get_text c)) cells.

Definition titled_rows (rows : list row) : list row := filter has_title rows.

(** The post [p] has the title and the link of the first title cell of
    the row [cells]. *)
Definition from_row (p : post) (cells : row) : Prop :=
  exists before c after,
    cells = before ++ c :: after
    /\ Forall (fun x => ~ title_like (get_text x)) before
    /\ title_like (get_text c)
    /\ title p = get_text c
    /\ link p = link_of c.

(** The post is to be notified when the clock's date is [today]. *)
Definition notifiable (self : SeoulMetroMonitor) (today : pystr) (p : post)
  : bool :=
  contains (date p) today && fst (check_keywords self (title p)).

(** What the JSON object of a notified post is to say. *)
Definition expected_summary (self : SeoulMetroMonitor) (p : post)
  : pystr * pystr * pystr * option pystr :=
  (title p, date p, link p, snd (check_keywords self (title p))).

End RowVocabulary.

(** ** Sample rows and worlds *)

(** The texts of the specification's example row, as code points. *)
Definition example_index : pystr := Eval vm_compute in lit "1".
Definition example_title : pystr :=
  Eval vm_compute in lit "장애인 집회시위 안내".
Definition example_date : pystr := Eval vm_compute in lit "2024-05-01".

(** A relative href and what it resolves to. *)
Definition example_href : pystr :=
  Eval vm_compute in lit "/kr/board.do?menuIdx=546&idx=1".
Definition example_link : pystr :=
  Eval vm_compute in
    lit "http://www.seoulmetro.co.kr/kr/board.do?menuIdx=546&idx=1".

(** The row of the specification's example: three cells of plain text. *)
Definition example_row : row :=
  [text_cell example_index; text_cell example_title; text_cell example_date].

(** The same row with the title inside an anchor of relative href. *)
Definition linked_row : row :=
  [text_cell example_index;
   {| get_text := example_title; find_a := Some (Some example_href) |};
   text_cell example_date].

(** The same row with the title inside an anchor whose href is empty, as
    in [<a href>]. *)
Definition empty_href_row : row :=
  [text_cell example_index;
   {| get_text := example_title; find_a := Some (Some []) |};
   text_cell example_date].

(** The first of May 2024, nothing logged, a board and a webhook that
    cannot be reached. *)
Definition may_day : world :=
  sample_world (sample_datetime 2024 5 1) None None.

(** A row dated the day before, with a keyword in its title. *)
Definition yesterday_date : pystr := Eval vm_compute in lit "2024-04-30".

Definition yesterday_row : row :=
  Eval vm_compute in
    [text_cell (lit "2"); text_cell (lit "장애인 콜택시 운영 안내");
     text_cell yesterday_date].

(** A board of two rows: one of today with a keyword, one of yesterday. *)
Definition sample_board : list row := [example_row; yesterday_row].

Definition ok_response : response :=
  Eval vm_compute in
    {| status_code := 200; text := lit "<table></table>" |}.

Definition error_response : response :=
  Eval vm_compute in
    {| status_code := 500; text := lit "Server Error" |}.

Definition sample_hook : pystr :=
  Eval vm_compute in lit "https://hook.example/notify".

(** The first of May 2024 with the board and the webhook answering 200. *)
Definition board_day : world :=
  sample_world (sample_datetime 2024 5 1) (Some ok_response) (Some ok_response).

(** The first of May 2024 with the board answering 500. *)
Definition down_day : world :=
  sample_world (sample_datetime 2024 5 1) (Some error_response) None.

(** The post of [example_row], the keyword its title is matched by, and
    the JSON sent for it on [board_day]. *)
Definition example_post : post :=
  {| title := example_title; date := example_date; link := [] |}.

Definition example_keyword : pystr := Eval vm_compute in lit "장애인".

Definition example_json : payload :=
  build_payload example_post (Some example_keyword) (sample_datetime 2024 5 1).

(** The log of the run over [sample_board] on [board_day]. *)
Definition sample_log : list event :=
  Eval vm_compute in
    trace (snd (monitor_posts (R := sample_runtime sample_board)
                  (init sample_hook) board_day)).

(** The two short keywords after ["장애인"], and a row whose last cell is
    fit for a title and for a date. *)
Definition keyword_jiphoe : pystr := Eval vm_compute in lit "집회".
Definition keyword_siwi : pystr := Eval vm_compute in lit "시위".

Definition dated_title : pystr := Eval vm_compute in lit "2024-05-01 공지사항".

Definition dated_title_row : row :=
  Eval vm_compute in
    [text_cell (lit "1"); text_cell (lit "2"); text_cell dated_title].

(** A row with a title and no cell fit for a date. *)
Definition undated_row : row :=
  Eval vm_compute in
    [text_cell (lit "1"); text_cell example_title; text_cell (lit "관리자")].

(** ** Markup the parser rejects, and a value that is not supplied *)

(** [WEBHOOK_URL] is not supplied: the variable is not set, or it is set
    to the empty string; [if not webhook_url] takes both ways and the script
    then prints that the variable is not set. *)
Definition not_supplied (environ_WEBHOOK_URL : option pystr) : Prop :=
  environ_WEBHOOK_URL = None \/ environ_WEBHOOK_URL = Some [].

(** The board answered the GET of a run started in [w] with status 200 and
    a body, not empty, that [BeautifulSoup] rejects. *)
Definition rejected {R : Runtime} (self : SeoulMetroMonitor) (w : world)
  : Prop :=
  exists resp,
    network w (trace w) (GET (url self)) = Some resp
    /\ status_code resp = 200%Z
    /\ text resp <> []
    /\ BeautifulSoup (text resp) = None.

(** A marked section with an unknown keyword: [html.parser] raises on it
    and [BeautifulSoup] passes the failure on as [ParserRejectedMarkup]. *)
Definition rejected_markup : pystr := Eval vm_compute in lit "<![x]>".

(** A runtime whose parser rejects [rejected_markup] and finds no row in
    any other markup. *)
Definition rejecting_runtime : Runtime :=
  {| lower := ascii_lower;
     isdigit_char := ascii_isdigit_char;
     BeautifulSoup := fun html =>
       if startswith html rejected_markup && startswith rejected_markup html
       then None
       else Some (one_table []) |}.

(** The first of May 2024 with the board answering 200 and
    [rejected_markup]. *)
Definition rejected_day : world :=
  sample_world (sample_datetime 2024 5 1)
    (Some {| status_code := 200; text := rejected_markup |}) None.

(** The posts parsed from [sample_board]. *)
Definition yesterday_post : post :=
  Eval vm_compute in
    {| title := lit "장애인 콜택시 운영 안내"; date := yesterday_date;
       link := [] |}.

Definition sample_posts : list post := [example_post; yesterday_post].

(** ** Tactics *)

(** [lia] is to see through division and remainder by constants. *)
Ltac Zify.zify_post_hook ::= Z.to_euclidean_division_equations.

(** Rewrites [lower s] to [s] on closed strings of Hangul and spaces. *)
Ltac lower_hangul H :=
  repeat match goal with
         | |- context [lower ?s] => rewrite (H s) by (vm_compute; reflexivity)
         end.

(** Splits [e :: t = before ++ x :: after] on [before]. *)
Ltac peel H :=
  match type of H with
  | _ :: _ = ?before ++ _ :: _ =>
    let e := fresh "e" in
    destruct before as [|e before]; cbn [app] in H;
    [ try discriminate H
    | let H0 := fresh "H0" in injection H as H0 H; subst e ]
  end.

(** ** Literals *)

Example lit_hangul :
  lit "집회" = [51665%N; 54924%N].
Proof. reflexivity. Qed.

(** ** Strings *)

Lemma startswith_iff (s prefix : pystr) :
  startswith s prefix = true <-> exists rest, s = prefix ++ rest.
Proof.
  revert s. induction prefix as [|p prefix IH]; intros s.
  - split; [intros _; now exists s | intros _; now destruct s].
  - destruct s as [|c s]; simpl.
    + split; [discriminate | intros [rest H]; discriminate].
    + rewrite andb_true_iff, N.eqb_eq, IH. split.
      * intros [-> [rest ->]]. now exists rest.
      * intros [rest H]. injection H as -> ->.
        split; [reflexivity | now exists rest].
Qed.

Lemma contains_iff (s sub : pystr) :
  contains s sub = true <-> substring sub s.
Proof.
  unfold substring. induction s as [|c s IH]; cbn [contains].
  - rewrite orb_false_r, startswith_iff. split.
    + intros [rest H]. exists [], rest. exact H.
    + intros [before [after H]].
      destruct before; [now exists after | discriminate].
  - rewrite orb_true_iff, startswith_iff, IH. split.
    + intros [[rest H] | [before [after H]]].
      * exists [], rest. exact H.
      * exists (c :: before), after. simpl. now rewrite H.
    + intros [before [after H]]. destruct before as [|b before].
      * left. now exists after.
      * right. injection H as _ H. now exists before, after.
Qed.

Lemma contains_false_iff (s sub : pystr) :
  contains s sub = false <-> ~ substring sub s.
Proof.
  rewrite <- contains_iff. destruct (contains s sub); split; intro H;
    try reflexivity; try discriminate; try (intro; discriminate).
  exfalso. now apply H.
Qed.

Lemma contains_char (s : pystr) (c : N) :
  contains s [c] = true <-> In c s.
Proof.
  induction s as [|x s IH]; simpl.
  - split; [discriminate | tauto].
  - rewrite orb_true_iff, IH. destruct s; rewrite andb_true_r, N.eqb_eq; split.
    + intros [-> | H]; [now left | now right].
    + intros [-> | H]; [now left | now right].
    + intros [-> | H]; [now left | now right].
    + intros [-> | H]; [now left | now right].
Qed.

(** ** Keyword matching *)

Section Keywords.

Context {R : Runtime}.

Lemma check_keywords_loop_match (tl : pystr) (kws : list pystr) (k : pystr) :
  check_keywords_loop tl kws = (true, Some k) <->
  exists i,
    nth_error kws i = Some k /\
    contains tl (lower k) = true /\
    forall j k', (j < i)%nat -> nth_error kws j = Some k' ->
                 contains tl (lower k') = false.
Proof.
  induction kws as [|kw kws IH]; simpl.
  - split; [discriminate | intros [i [H _]]; destruct i; discriminate].
  - destruct (contains tl (lower kw)) eqn:E.
    + split.
      * intros H. injection H as ->. exists 0%nat. simpl.
        repeat split; [exact E | intros j k' Hj; lia].
      * intros [i [Hi [Hc Hbefore]]]. destruct i as [|i].
        -- simpl in Hi. now injection Hi as ->.
        -- specialize (Hbefore 0%nat kw (Nat.lt_0_succ i) eq_refl). congruence.
    + rewrite IH. split.
      * intros [i [Hi [Hc Hbefore]]]. exists (S i). simpl.
        repeat split; [exact Hi | exact Hc |].
        intros [|j] k' Hj Hk'; simpl in Hk'.
        -- now injection Hk' as <-.
        -- apply (Hbefore j k'); [lia | exact Hk'].
      * intros [i [Hi [Hc Hbefore]]]. destruct i as [|i].
        -- simpl in Hi. injection Hi as ->. congruence.
        -- exists i. simpl in Hi. repeat split; [exact Hi | exact Hc |].
           intros j k' Hj Hk'. apply (Hbefore (S j) k'); [lia | exact Hk'].
Qed.

Lemma check_keywords_loop_none (tl : pystr) (kws : list pystr) :
  check_keywords_loop tl kws = (false, None) <->
  forall k, In k kws -> contains tl (lower k) = false.
Proof.
  induction kws as [|kw kws IH]; simpl.
  - split; [intros _ k [] | reflexivity].
  - destruct (contains tl (lower kw)) eqn:E.
    + split; [discriminate |]. intros H. specialize (H kw (or_introl eq_refl)).
      congruence.
    + rewrite IH. split.
      * intros H k [<- | Hk]; [exact E | now apply H].
      * intros H k Hk. apply H. now right.
Qed.

Lemma check_keywords_loop_shape (tl : pystr) (kws : list pystr) :
  check_keywords_loop tl kws = (false, None) \/
  exists k, check_keywords_loop tl kws = (true, Some k).
Proof.
  induction kws as [|kw kws IH]; simpl.
  - now left.
  - destruct (contains tl (lower kw)); [right; now exists kw | exact IH].
Qed.

(** C3. [check_keywords] gives [(True, k)] exactly when [k] is the first
    keyword, in the order of the list, whose lower-cased form occurs in the
    lower-cased title; it gives [(False, None)] exactly when no keyword
    does; and it gives nothing else, so one keyword at most is reported. *)
Theorem check_keywords_first_match (self : SeoulMetroMonitor) (t : pystr) :
  (forall k, check_keywords self t = (true, Some k)
             <-> first_match (keywords self) t k)
  /\ (check_keywords self t = (false, None)
      <-> forall k, In k (keywords self)
                    -> ~ substring (lower k) (lower t))
  /\ (check_keywords self t = (false, None)
      \/ exists k, check_keywords self t = (true, Some k)).
Proof.
  unfold check_keywords, first_match. repeat split.
  - intros H. apply check_keywords_loop_match in H.
    destruct H as [i [Hi [Hc Hb]]]. exists i. repeat split.
    + exact Hi.
    + now apply contains_iff.
    + intros j k' Hj Hk'. apply contains_false_iff. now apply (Hb j k').
  - intros [i [Hi [Hc Hb]]]. apply check_keywords_loop_match. exists i.
    repeat split.
    + exact Hi.
    + now apply contains_iff.
    + intros j k' Hj Hk'. apply contains_false_iff. now apply (Hb j k').
  - intros H k Hk. apply contains_false_iff.
    now apply (proj1 (check_keywords_loop_none _ _) H).
  - intros H. apply check_keywords_loop_none. intros k Hk.
    apply contains_false_iff. now apply H.
  - apply check_keywords_loop_shape.
Qed.

End Keywords.

(** ** The configured keywords on the titles of the specification *)

Lemma ascii_lower_caseless (rows : list row) :
  caseless_hangul (sample_runtime rows).
Proof.
  intros s. simpl. induction s as [|c s IH]; simpl; [reflexivity |].
  rewrite andb_true_iff. intros [Hc Hs]. rewrite (IH Hs). f_equal.
  unfold hangul_or_space in Hc.
  destruct ((65 <=? c) && (c <=? 90))%N eqn:E; [| reflexivity].
  apply andb_true_iff in E. destruct E as [E1 E2].
  apply N.leb_le in E1, E2.
  apply orb_true_iff in Hc. destruct Hc as [Hc | Hc].
  - apply N.eqb_eq in Hc. lia.
  - apply andb_true_iff in Hc. destruct Hc as [Hc _]. apply N.leb_le in Hc. lia.
Qed.

(** The two titles of the specification's example, run against the
    keywords of [__init__]. *)
Lemma configured_on_examples (R : Runtime) (webhook : pystr) :
  caseless_hangul R ->
  check_keywords (init webhook) (lit "오늘의 장애인 집회 관련 공지")
    = (true, Some (lit "장애인"))
  /\ check_keywords (init webhook) (lit "일반 공지사항") = (false, None).
Proof.
  intros H. unfold check_keywords, init, keywords, configured_keywords.
  cbn [check_keywords_loop]. lower_hangul H.
  split; vm_compute; reflexivity.
Qed.

(** C4, as the code has it.  With the keywords of [__init__], the title
    of the specification's example is matched by ["장애인"], which stands
    before ["집회"] in the list; a title holding no keyword gives
    [(False, None)]. *)
Theorem check_keywords_configured (R : Runtime) (webhook : pystr)
  (H : caseless_hangul R) :
  check_keywords (init webhook) (lit "오늘의 장애인 집회 관련 공지")
    = (true, Some (lit "장애인"))
  /\ check_keywords (init webhook) (lit "일반 공지사항") = (false, None).
Proof. exact (configured_on_examples R webhook H). Qed.

Lemma check_keywords_configured_witness :
  caseless_hangul (sample_runtime [])
  /\ check_keywords (R := sample_runtime []) (init [])
       (lit "오늘의 장애인 집회 관련 공지") = (true, Some (lit "장애인"))
  /\ check_keywords (R := sample_runtime []) (init []) (lit "일반 공지사항")
     = (false, None).
Proof.
  split.
  - exact (ascii_lower_caseless []).
  - exact (check_keywords_configured (sample_runtime []) []
             (ascii_lower_caseless [])).
Defined.

(** The answer the specification's example expects, [(True, "집회")], is
    not the one computed: neither with the sample runtime, nor with any
    runtime whose [lower] leaves Hangul as it is. *)
Lemma check_keywords_example_not_jiphoe :
  check_keywords (R := sample_runtime []) (init [])
    (lit "오늘의 장애인 집회 관련 공지") <> (true, Some (lit "집회"))
  /\ ~ (exists R : Runtime,
          caseless_hangul R
          /\ check_keywords (R := R) (init [])
               (lit "오늘의 장애인 집회 관련 공지") = (true, Some (lit "집회"))).
Proof.
  split.
  - vm_compute. discriminate.
  - intros [R [H E]].
    rewrite (proj1 (configured_on_examples R [] H)) in E.
    vm_compute in E. discriminate.
Qed.

(** ** Today's date *)

Lemma cons_eq_inv {A} (x y : A) (l m : list A) :
  x :: l = y :: m -> x = y /\ l = m.
Proof. intros H. split; congruence. Qed.

Lemma pad4_inj (y : N) (a b c d : N) :
  (y <= 9999)%N ->
  pad4 y = [(48 + a)%N; (48 + b)%N; (48 + c)%N; (48 + d)%N] ->
  (a < 10)%N -> (b < 10)%N -> (c < 10)%N -> (d < 10)%N ->
  y = (1000 * a + 100 * b + 10 * c + d)%N.
Proof.
  unfold pad4, digit. intros Hy H Ha Hb Hc Hd.
  replace (y / 1000)%N with (y / 10 / 10 / 10)%N in H
    by (rewrite !N.Div0.div_div; reflexivity).
  replace (y / 100)%N with (y / 10 / 10)%N in H
    by (rewrite !N.Div0.div_div; reflexivity).
  apply cons_eq_inv in H. destruct H as [H1 H].
  apply cons_eq_inv in H. destruct H as [H2 H].
  apply cons_eq_inv in H. destruct H as [H3 H].
  apply cons_eq_inv in H. destruct H as [H4 _]. lia.
Qed.

Lemma pad2_inj (m : N) (a b : N) :
  (m <= 99)%N ->
  pad2 m = [(48 + a)%N; (48 + b)%N] ->
  (a < 10)%N -> (b < 10)%N ->
  m = (10 * a + b)%N.
Proof.
  unfold pad2, digit. intros Hm H Ha Hb.
  apply cons_eq_inv in H. destruct H as [H1 H].
  apply cons_eq_inv in H. destruct H as [H2 _]. lia.
Qed.

Lemma digit_range (n : N) : (48 <= digit n <= 57)%N.
Proof. unfold digit. lia. Qed.

(** The only place of ["2024-05-01 공지"] where a text of the shape
    [dddd-dd-dd] fits is its start. *)
Lemma example_contains_date (a b c d e f g h : N) :
  (48 <= a <= 57)%N -> (48 <= b <= 57)%N -> (48 <= c <= 57)%N ->
  (48 <= d <= 57)%N -> (48 <= e <= 57)%N -> (48 <= f <= 57)%N ->
  (48 <= g <= 57)%N -> (48 <= h <= 57)%N ->
  contains (lit "2024-05-01 공지") [a; b; c; d; 45%N; e; f; 45%N; g; h] = true
  <-> [a; b; c; d; e; f; g; h] = [50; 48; 50; 52; 48; 53; 48; 49]%N.
Proof.
  intros Ha Hb Hc Hd He Hf Hg Hh.
  change (lit "2024-05-01 공지")
    with [50; 48; 50; 52; 45; 48; 53; 45; 48; 49; 32; 44277; 51648]%N.
  cbn [contains startswith].
  rewrite !orb_true_iff, !andb_true_iff, !N.eqb_eq.
  split.
  - intros H. repeat f_equal; lia.
  - intros H. injection H as -> -> -> -> -> -> -> ->. left. repeat split.
Qed.

Lemma strftime_Ymd_example (d : datetime) :
  four_digit_date d ->
  contains (lit "2024-05-01 공지") (strftime_Ymd d) = true
  <-> year d = 2024%N /\ month d = 5%N /\ day d = 1%N.
Proof.
  intros [Hy [Hm Hd]].
  change (strftime_Ymd d)
    with [digit (year d / 1000); digit (year d / 100); digit (year d / 10);
          digit (year d); 45%N; digit (month d / 10); digit (month d); 45%N;
          digit (day d / 10); digit (day d)].
  rewrite example_contains_date by apply digit_range.
  split.
  - intros H.
    assert (Hy4 : pad4 (year d) = [50; 48; 50; 52]%N)
      by (unfold pad4; congruence).
    assert (Hm2 : pad2 (month d) = [48; 53]%N)
      by (unfold pad2; congruence).
    assert (Hd2 : pad2 (day d) = [48; 49]%N)
      by (unfold pad2; congruence).
    apply (pad4_inj _ 2 0 2 4) in Hy4; try lia.
    apply (pad2_inj _ 0 5) in Hm2; try lia.
    apply (pad2_inj _ 0 1) in Hd2; try lia.
  - intros [-> [-> ->]]. reflexivity.
Qed.

(** C2. On a string, [is_today_post] reads the clock once and answers
    [True] exactly when the date read, written [YYYY-MM-DD], occurs in the
    string; when the membership test raises, the answer is [False].  On
    ["2024-05-01 공지"] the answer is [True] exactly when the clock reads the
    first of May 2024. *)
Theorem is_today_post_substring (w : world) :
  let today := strftime_Ymd (clock w (ticks w)) in
  (forall date_str,
      exists b, is_today_post (VStr date_str) w = (Ret b, tick w)
                /\ (b = true <-> substring today date_str))
  /\ (forall v, py_in today v = None
                -> is_today_post v w = (Ret false, tick w))
  /\ (four_digit_date (clock w (ticks w)) ->
      (is_today_post (VStr (lit "2024-05-01 공지")) w = (Ret true, tick w)
       <-> year (clock w (ticks w)) = 2024%N
           /\ month (clock w (ticks w)) = 5%N
           /\ day (clock w (ticks w)) = 1%N)).
Proof.
  intros today. split; [| split].
  - intros date_str. exists (contains date_str today). split.
    + reflexivity.
    + apply contains_iff.
  - intros v Hv. unfold is_today_post, bind, now, ret. fold today.
    rewrite Hv. reflexivity.
  - intros H4. rewrite <- (strftime_Ymd_example _ H4).
    unfold is_today_post, bind, now, ret, py_in. split.
    + intros H. congruence.
    + intros H. rewrite H. reflexivity.
Qed.

Lemma is_today_post_substring_witness :
  let w := sample_world (sample_datetime 2024 5 1) None None in
  four_digit_date (clock w (ticks w))
  /\ py_in (strftime_Ymd (clock w (ticks w))) VNone = None
  /\ is_today_post VNone w = (Ret false, tick w)
  /\ is_today_post (VStr (lit "2024-05-01 공지")) w = (Ret true, tick w).
Proof.
  intros w.
  assert (H4 : four_digit_date (clock w (ticks w)))
    by (unfold four_digit_date; simpl; lia).
  split; [exact H4 |]. split; [reflexivity |]. split.
  - apply (proj1 (proj2 (is_today_post_substring w)) VNone). reflexivity.
  - apply (proj2 (proj2 (is_today_post_substring w)) H4).
    simpl. repeat split; reflexivity.
Defined.

(** ** The webhook *)

(** C7. [send_webhook] reads the clock, sends one POST and no other
    request, and never raises; it answers [True] exactly when the POST came
    back with status 200, so any other status and any exception of the
    transport give [False]. *)
Theorem send_webhook_only_200 (self : SeoulMetroMonitor) (post_info : post)
  (matched_keyword : option pystr) (w : world) :
  exists (json : payload) (b : bool),
    let rq := POST (webhook_url self) json in
    send_webhook self post_info matched_keyword w
      = (Ret b, logged (Request rq) (tick w))
    /\ (json_title json = title post_info
        /\ json_date json = date post_info
        /\ json_link json = link post_info
        /\ json_keyword json = matched_keyword
        /\ json_timestamp json = isoformat (clock w (ticks w)))
    /\ (b = true <-> exists resp, network w (trace w) rq = Some resp
                                  /\ status_code resp = 200%Z)
    /\ (b = false <-> network w (trace w) rq = None
                      \/ exists resp, network w (trace w) rq = Some resp
                                      /\ status_code resp <> 200%Z).
Proof.
  unfold send_webhook, bind, now, http, ret. cbn [clock ticks network trace].
  match goal with
  | |- context [POST (webhook_url self) ?p] => set (json := p)
  end.
  destruct (network w (trace w) (POST (webhook_url self) json))
    as [resp|] eqn:E.
  - destruct (status_code resp =? 200)%Z eqn:Es.
    + exists json, true. apply Z.eqb_eq in Es. cbn zeta. rewrite E.
      repeat split; try discriminate.
      * now exists resp.
      * intros [H | [r [Hr Hs]]]; [discriminate | congruence].
    + exists json, false. apply Z.eqb_neq in Es. cbn zeta. rewrite E.
      repeat split; try discriminate.
      * intros [r [Hr Hs]]. congruence.
      * intros _. right. now exists resp.
  - exists json, false. cbn zeta. rewrite E. repeat split; try discriminate.
    + intros [r [Hr Hs]]. discriminate.
    + intros _. now left.
Qed.

(** ** The row parser *)

Section Rows.

Context {R : Runtime}.

Lemma isdigit_iff (s : pystr) : isdigit s = true <-> purely_numeric s.
Proof.
  unfold isdigit, purely_numeric.
  rewrite andb_true_iff, forallb_forall, Forall_forall.
  destruct s; simpl; split; intros [H1 H2]; split;
    congruence || assumption || discriminate.
Qed.

Lemma title_test_iff (s : pystr) : title_test s = true <-> title_like s.
Proof.
  unfold title_test, title_like.
  rewrite andb_true_iff, Nat.ltb_lt, negb_true_iff, <- isdigit_iff.
  destruct (isdigit s); split; intros [H1 H2]; split;
    congruence || assumption.
Qed.

Lemma title_test_false_iff (s : pystr) :
  title_test s = false <-> ~ title_like s.
Proof.
  rewrite <- title_test_iff. destruct (title_test s); split; intro H;
    congruence || (intro; discriminate) || reflexivity
    || (exfalso; now apply H).
Qed.

Lemma has_separator_iff (s : pystr) :
  has_separator s = true <-> In 45%N s \/ In 46%N s \/ In 47%N s.
Proof.
  unfold has_separator. cbn [existsb].
  change (lit "-") with [45%N]. change (lit ".") with [46%N].
  change (lit "/") with [47%N].
  rewrite !orb_true_iff, !contains_char. intuition discriminate.
Qed.

Lemma date_test_iff (s : pystr) : date_test s = true <-> date_like s.
Proof.
  unfold date_test, date_like.
  now rewrite andb_true_iff, has_separator_iff, Nat.leb_le.
Qed.

Lemma date_test_false_iff (s : pystr) :
  date_test s = false <-> ~ date_like s.
Proof.
  rewrite <- date_test_iff. destruct (date_test s); split; intro H;
    congruence || (intro; discriminate) || reflexivity
    || (exfalso; now apply H).
Qed.

(** One step of the title loop, with its test folded. *)
Lemma title_loop_step (c : cell) (rest : list cell) (t l : pystr) :
  title_loop (c :: rest) t l =
  if title_test (get_text c) then
    (get_text c,
     match find_a c with
     | Some (Some href) => if truthy href then resolve href else l
     | _ => l
     end)
  else title_loop rest t l.
Proof.
  cbn [title_loop]. fold (title_test (get_text c)).
  destruct (title_test (get_text c)); [| reflexivity].
  destruct (find_a c) as [[href|]|]; try reflexivity.
  unfold resolve. destruct (truthy href); [| reflexivity].
  destruct (startswith href (lit "http")); reflexivity.
Qed.

Lemma title_loop_none (cells : list cell) (t l : pystr) :
  (forall c, In c cells -> ~ title_like (get_text c)) ->
  title_loop cells t l = (t, l).
Proof.
  induction cells as [|c cells IH]; intros H; [reflexivity |].
  rewrite title_loop_step.
  rewrite (proj2 (title_test_false_iff _) (H c (or_introl eq_refl))).
  apply IH. intros c' Hc'. apply H. now right.
Qed.

Lemma title_loop_found (before : list cell) (c : cell) (after : list cell) :
  Forall (fun x => ~ title_like (get_text x)) before ->
  title_like (get_text c) ->
  title_loop (before ++ c :: after) [] [] = (get_text c, link_of c).
Proof.
  intros Hb Hc. induction Hb as [|x before Hx Hb IH]; simpl app.
  - rewrite title_loop_step, (proj2 (title_test_iff _) Hc). reflexivity.
  - rewrite title_loop_step, (proj2 (title_test_false_iff _) Hx). exact IH.
Qed.

(** Every row either has no cell fit for a title or splits at the first
    one. *)
Lemma first_title_cell (cells : list cell) :
  (forall c, In c cells -> ~ title_like (get_text c))
  \/ exists before c after,
       cells = before ++ c :: after
       /\ Forall (fun x => ~ title_like (get_text x)) before
       /\ title_like (get_text c).
Proof.
  induction cells as [|x cells IH].
  - left. intros c [].
  - destruct (title_test (get_text x)) eqn:E.
    + right. exists [], x, cells.
      split; [reflexivity | split; [constructor | now apply title_test_iff]].
    + apply title_test_false_iff in E. destruct IH as [IH | IH].
      * left. intros c [<- | Hc]; [exact E | now apply IH].
      * right. destruct IH as [before [c [after [-> [Hb Hc]]]]].
        exists (x :: before), c, after.
        split; [reflexivity | split; [now constructor | exact Hc]].
Qed.

Lemma date_loop_none (cells : list cell) (d : pystr) :
  (forall c, In c cells -> ~ date_like (get_text c)) ->
  date_loop cells d = d.
Proof.
  induction cells as [|c cells IH]; intros H; [reflexivity |].
  cbn [date_loop].
  assert (E : date_test (get_text c) = false)
    by (apply date_test_false_iff, H; now left).
  unfold date_test in E.
  destruct (has_separator (get_text c)); cbn [andb] in E.
  - rewrite E. apply IH. intros c' Hc'. apply H. now right.
  - apply IH. intros c' Hc'. apply H. now right.
Qed.

Lemma date_loop_found (before : list cell) (c : cell) (after : list cell)
  (d : pystr) :
  Forall (fun x => ~ date_like (get_text x)) before ->
  date_like (get_text c) ->
  date_loop (before ++ c :: after) d = get_text c.
Proof.
  intros Hb Hc. induction Hb as [|x before Hx Hb IH]; simpl app;
    cbn [date_loop].
  - apply date_test_iff in Hc. unfold date_test in Hc.
    apply andb_true_iff in Hc. destruct Hc as [-> ->]. reflexivity.
  - apply date_test_false_iff in Hx. unfold date_test in Hx.
    destruct (has_separator (get_text x)); cbn [andb] in Hx.
    + rewrite Hx. exact IH.
    + exact IH.
Qed.

Lemma first_date_cell (cells : list cell) :
  (forall c, In c cells -> ~ date_like (get_text c))
  \/ exists before c after,
       cells = before ++ c :: after
       /\ Forall (fun x => ~ date_like (get_text x)) before
       /\ date_like (get_text c).
Proof.
  induction cells as [|x cells IH].
  - left. intros c [].
  - destruct (date_test (get_text x)) eqn:E.
    + right. exists [], x, cells.
      split; [reflexivity | split; [constructor | now apply date_test_iff]].
    + apply date_test_false_iff in E. destruct IH as [IH | IH].
      * left. intros c [<- | Hc]; [exact E | now apply IH].
      * right. destruct IH as [before [c [after [-> [Hb Hc]]]]].
        exists (x :: before), c, after.
        split; [reflexivity | split; [now constructor | exact Hc]].
Qed.

(** The date loop runs on the reversed row: what it finds is the last
    cell, in the order of the document, fit for a date. *)
Lemma date_loop_rev_found (before : list cell) (c : cell) (after : list cell) :
  date_like (get_text c) ->
  Forall (fun x => ~ date_like (get_text x)) after ->
  date_loop (rev (before ++ c :: after)) [] = get_text c.
Proof.
  intros Hc Ha. rewrite rev_app_distr. cbn [rev]. rewrite <- app_assoc.
  cbn [app]. apply date_loop_found; [| exact Hc].
  apply Forall_rev. exact Ha.
Qed.

Lemma date_loop_rev_none (cells : list cell) :
  (forall c, In c cells -> ~ date_like (get_text c)) ->
  date_loop (rev cells) [] = [].
Proof.
  intros H. apply date_loop_none. intros c Hc. apply H.
  now apply in_rev.
Qed.

Lemma date_like_nonempty (s : pystr) : date_like s -> s <> [].
Proof. intros [_ H] ->. simpl in H. lia. Qed.

Lemma title_like_nonempty (s : pystr) : title_like s -> s <> [].
Proof. intros [H _] ->. simpl in H. lia. Qed.

Lemma truthy_true_iff (s : pystr) : truthy s = true <-> s <> [].
Proof. destruct s; simpl; split; congruence. Qed.

Lemma parse_row_short (cells : row) (w : world) :
  (List.length cells < 3)%nat -> parse_row cells w = (Ret None, w).
Proof.
  intros H. unfold parse_row.
  destruct (Nat.leb_spec 3 (List.length cells)); [lia | reflexivity].
Qed.

Lemma parse_row_no_title (cells : row) (w : world) :
  (forall c, In c cells -> ~ title_like (get_text c)) ->
  parse_row cells w = (Ret None, w).
Proof.
  intros H. unfold parse_row.
  destruct (3 <=? List.length cells)%nat; [| reflexivity].
  rewrite (title_loop_none _ _ _ H). reflexivity.
Qed.

(** What a row with a title cell gives: the date found, or the clock read
    once when none is found. *)
Lemma parse_row_post (before : list cell) (c : cell) (after : list cell)
  (w : world) :
  let cells := before ++ c :: after in
  (3 <= List.length cells)%nat ->
  Forall (fun x => ~ title_like (get_text x)) before ->
  title_like (get_text c) ->
  parse_row cells w =
  match date_loop (rev cells) [] with
  | [] => (Ret (Some {| title := get_text c;
                        date := strftime_Ymd (clock w (ticks w));
                        link := link_of c |}), tick w)
  | _ :: _ => (Ret (Some {| title := get_text c;
                           date := date_loop (rev cells) [];
                           link := link_of c |}), w)
  end.
Proof.
  intros cells Hlen Hb Hc. unfold parse_row.
  destruct (Nat.leb_spec 3 (List.length cells)); [| lia].
  unfold cells at 1. rewrite (title_loop_found _ _ _ Hb Hc).
  apply title_like_nonempty, truthy_true_iff in Hc. rewrite Hc. cbn [negb].
  destruct (date_loop (rev cells) []); reflexivity.
Qed.

Lemma resolve_startswith (href : pystr) :
  startswith (resolve href) (lit "http") = true.
Proof.
  unfold resolve. destruct (startswith href (lit "http")) eqn:E; [exact E |].
  apply startswith_iff. exists (lit "://www.seoulmetro.co.kr" ++ href).
  assert (E0 : base_origin = lit "http" ++ lit "://www.seoulmetro.co.kr")
    by (vm_compute; reflexivity).
  rewrite E0. symmetry. apply app_assoc.
Qed.

Lemma link_of_shape (c : cell) :
  link_of c = [] \/ startswith (link_of c) (lit "http") = true.
Proof.
  unfold link_of. destruct (find_a c) as [[href|]|]; try now left.
  destruct (truthy href); [right; apply resolve_startswith | now left].
Qed.

End Rows.

(** C5, as the code has it.  A row of fewer than 3 cells gives no post,
    and so does a row none of whose cells is fit for a title.  Otherwise the
    title is the text of the first cell, in the order of the document, of
    more than 5 characters and not purely numeric; the link is the href of
    that cell's first anchor, made absolute, when the anchor has a
    non-empty href, and it is empty when the cell has no anchor or the
    anchor has no href or an empty one. *)
Theorem parse_row_title_and_link (R : Runtime) (cells : row) (w : world) :
  ((List.length cells < 3)%nat -> parse_row cells w = (Ret None, w))
  /\ ((forall c, In c cells -> ~ title_like (get_text c))
      -> parse_row cells w = (Ret None, w))
  /\ (forall before c after,
        (3 <= List.length cells)%nat ->
        cells = before ++ c :: after ->
        Forall (fun x => ~ title_like (get_text x)) before ->
        title_like (get_text c) ->
        exists p w',
          parse_row cells w = (Ret (Some p), w')
          /\ title p = get_text c
          /\ (forall href, find_a c = Some (Some href) -> href <> []
                           -> link p = resolve href)
          /\ (find_a c = None \/ find_a c = Some None
              \/ find_a c = Some (Some []) -> link p = [])).
Proof.
  split; [apply parse_row_short | split; [apply parse_row_no_title |]].
  intros before c after Hlen -> Hb Hc.
  rewrite (parse_row_post before c after w Hlen Hb Hc).
  assert (Hl1 : forall href, find_a c = Some (Some href) -> href <> []
                             -> link_of c = resolve href).
  { intros href Hf Hne. unfold link_of. rewrite Hf.
    now rewrite (proj2 (truthy_true_iff href) Hne). }
  assert (Hl2 : find_a c = None \/ find_a c = Some None
                \/ find_a c = Some (Some []) -> link_of c = []).
  { unfold link_of. intros [-> | [-> | ->]]; reflexivity. }
  destruct (date_loop (rev (before ++ c :: after)) []);
    eexists; eexists; (split; [reflexivity |]); cbn [title link];
    (split; [reflexivity |]); split; assumption.
Qed.

Lemma example_title_like (R : Runtime) :
  hangul_no_digit R -> title_like example_title.
Proof.
  intros H. split; [vm_compute; lia |].
  intros [_ Hd]. rewrite Forall_forall in Hd.
  specialize (Hd 32%N). rewrite H in Hd; [| reflexivity].
  assert (In 32%N example_title) by (vm_compute; tauto).
  specialize (Hd H0). discriminate.
Qed.

Lemma sample_no_digit (rows : list row) : hangul_no_digit (sample_runtime rows).
Proof.
  intros c Hc. simpl. unfold ascii_isdigit_char, hangul_or_space in *.
  apply orb_true_iff in Hc. rewrite andb_false_iff, !N.leb_gt.
  destruct Hc as [Hc | Hc].
  - apply N.eqb_eq in Hc. lia.
  - apply andb_true_iff in Hc. destruct Hc as [Hc _]. apply N.leb_le in Hc. lia.
Qed.

Lemma index_not_title_like (R : Runtime) : ~ title_like example_index.
Proof. intros [H _]. vm_compute in H. lia. Qed.

Lemma parse_row_title_and_link_witness :
  exists p w',
    parse_row (R := sample_runtime []) linked_row may_day = (Ret (Some p), w')
    /\ title p = example_title
    /\ link p = example_link.
Proof.
  destruct (proj2 (proj2 (parse_row_title_and_link (sample_runtime [])
                            linked_row may_day))
              [text_cell example_index]
              {| get_text := example_title;
                 find_a := Some (Some example_href) |}
              [text_cell example_date])
    as [p [w' [Hp [Ht [Hl _]]]]].
  - vm_compute. lia.
  - reflexivity.
  - constructor; [apply index_not_title_like | constructor].
  - apply (example_title_like _ (sample_no_digit [])).
  - exists p, w'. split; [exact Hp | split; [exact Ht |]].
    rewrite (Hl example_href eq_refl);
      [vm_compute; reflexivity | vm_compute; discriminate].
Defined.

(** A title cell whose anchor has an empty href.  The href does not start
    with [http], and putting the site's origin before it gives the origin;
    the link of the post is empty all the same. *)
Lemma parse_row_empty_href :
  nth_error empty_href_row 1
  = Some {| get_text := example_title; find_a := Some (Some []) |}
  /\ parse_row (R := sample_runtime []) empty_href_row may_day
     = (Ret (Some {| title := example_title; date := example_date;
                     link := [] |}), may_day)
  /\ startswith [] (lit "http") = false
  /\ resolve [] = base_origin
  /\ base_origin <> [].
Proof.
  split; [reflexivity |].
  split; [vm_compute; reflexivity |].
  split; [vm_compute; reflexivity |].
  split; [vm_compute; reflexivity |].
  vm_compute. discriminate.
Qed.

(** C6. In a row that gives a post, the date is the text of the first
    cell, going from the last cell to the first, that holds one of [-], [.],
    [/] and has at least 8 characters, and the clock is not read; when no
    cell is so, the date is that of the clock, read once, written
    [YYYY-MM-DD].  The row of texts [1], [장애인 집회시위 안내], [2024-05-01]
    ([example_index], [example_title], [example_date]), whose title cell has
    no anchor, gives the post of that title and date with an empty link. *)
Theorem parse_row_date (R : Runtime) (cells : row) (w w' : world) (p : post) :
  (parse_row cells w = (Ret (Some p), w') ->
   (forall before c after,
       cells = before ++ c :: after ->
       date_like (get_text c) ->
       Forall (fun x => ~ date_like (get_text x)) after ->
       date p = get_text c /\ w' = w)
   /\ ((forall c, In c cells -> ~ date_like (get_text c)) ->
       date p = strftime_Ymd (clock w (ticks w)) /\ w' = tick w))
  /\ (hangul_no_digit R ->
      forall a0 a2,
        parse_row [ {| get_text := example_index; find_a := a0 |};
                    text_cell example_title;
                    {| get_text := example_date; find_a := a2 |} ] w
        = (Ret (Some {| title := example_title;
                        date := example_date; link := [] |}), w)).
Proof.
  split.
  - intros Hp.
    destruct (Nat.ltb_spec (List.length cells) 3) as [Hlen | Hlen].
    { rewrite parse_row_short in Hp by assumption. discriminate. }
    destruct (first_title_cell cells) as [Hno | [tb [tc [ta [E [Hb Hc]]]]]].
    { rewrite parse_row_no_title in Hp by assumption. discriminate. }
    subst cells. rewrite (parse_row_post tb tc ta w Hlen Hb Hc) in Hp.
    split.
    + intros before c after E Hc' Ha.
      rewrite E, (date_loop_rev_found before c after Hc' Ha) in Hp.
      destruct (get_text c) eqn:Et.
      * exfalso. now apply (date_like_nonempty _ Hc').
      * injection Hp as <- <-. split; reflexivity.
    + intros Hno. rewrite (date_loop_rev_none _ Hno) in Hp.
      injection Hp as <- <-. split; reflexivity.
  - intros Hd a0 a2.
    rewrite (parse_row_post [ {| get_text := example_index; find_a := a0 |} ]
               (text_cell example_title)
               [ {| get_text := example_date; find_a := a2 |} ] w).
    + vm_compute. reflexivity.
    + cbn [List.length app]. lia.
    + constructor; [apply index_not_title_like | constructor].
    + apply (example_title_like R Hd).
Qed.

Lemma parse_row_date_witness :
  parse_row (R := sample_runtime []) example_row may_day
  = (Ret (Some {| title := example_title; date := example_date;
                  link := [] |}), may_day)
  /\ date {| title := example_title; date := example_date; link := [] |}
     = example_date.
Proof.
  pose proof (parse_row_date (sample_runtime []) example_row may_day may_day
                {| title := example_title; date := example_date;
                   link := [] |}) as [Hgen Hex].
  specialize (Hex (sample_no_digit []) None None).
  split; [exact Hex |].
  destruct (Hgen Hex) as [Hfound _].
  apply (Hfound [text_cell example_index; text_cell example_title]
           (text_cell example_date) []).
  - reflexivity.
  - apply date_test_iff. vm_compute. reflexivity.
  - constructor.
Defined.

(** ** The posts of a document *)

Section Posts.

Context {R : Runtime}.

Lemma only_clock_read_refl (w : world) : only_clock_read w w.
Proof. unfold only_clock_read. auto. Qed.

Lemma only_clock_read_tick (w : world) : only_clock_read w (tick w).
Proof. unfold only_clock_read, tick. cbn. auto. Qed.

Lemma only_clock_read_trans (w1 w2 w3 : world) :
  only_clock_read w1 w2 -> only_clock_read w2 w3 -> only_clock_read w1 w3.
Proof.
  unfold only_clock_read. intros [A1 [A2 [A3 A4]]] [B1 [B2 [B3 B4]]].
  repeat split; try congruence. lia.
Qed.

Lemma post_invariant_mono (P Q : pystr -> Prop) (p : post) :
  (forall s, P s -> Q s) -> post_invariant P p -> post_invariant Q p.
Proof.
  intros HPQ [Ht [[Hd1 Hd2] Hl]]. split; [exact Ht | split; [| exact Hl]].
  split; [exact Hd1 |]. destruct Hd2; [now left | right; now apply HPQ].
Qed.

Lemma read_between_mono (clk : nat -> datetime) (lo hi hi' : nat) (s : pystr) :
  (hi <= hi')%nat -> read_between clk lo hi s -> read_between clk lo hi' s.
Proof. intros H [n [Hn ->]]. exists n. split; [lia | reflexivity]. Qed.

Lemma strftime_Ymd_nonempty (d : datetime) : strftime_Ymd d <> [].
Proof. unfold strftime_Ymd, pad4. cbn [app]. discriminate. Qed.

(** A row gives no post, or a post that keeps the invariant; the world
    changes by one reading of the clock at most. *)
Lemma parse_row_invariant (cells : row) (w : world) :
  exists r w',
    parse_row cells w = (Ret r, w')
    /\ only_clock_read w w'
    /\ match r with
       | None => True
       | Some p =>
         post_invariant (read_between (clock w) (ticks w) (ticks w')) p
       end.
Proof.
  destruct (Nat.ltb_spec (List.length cells) 3) as [Hlen | Hlen].
  { exists None, w. rewrite parse_row_short by assumption.
    repeat split; auto using only_clock_read_refl. }
  destruct (first_title_cell cells) as [Hno | [tb [tc [ta [E [Hb Hc]]]]]].
  { exists None, w. rewrite parse_row_no_title by assumption.
    repeat split; auto using only_clock_read_refl. }
  subst cells. rewrite (parse_row_post tb tc ta w Hlen Hb Hc).
  assert (Htitle : get_text tc <> [] /\ (5 < List.length (get_text tc))%nat
                   /\ ~ purely_numeric (get_text tc)).
  { split; [now apply title_like_nonempty | exact Hc]. }
  destruct (first_date_cell (rev (tb ++ tc :: ta)))
    as [Hnone | [db [dc [da [E [Hdb Hdc]]]]]].
  - rewrite (date_loop_none _ _ Hnone). eexists; eexists.
    split; [reflexivity |]. split; [apply only_clock_read_tick |].
    split; [exact Htitle |]. cbn [title date link tick ticks].
    split; [| apply link_of_shape].
    split; [apply strftime_Ymd_nonempty |]. right.
    exists (ticks w). split; [lia | reflexivity].
  - rewrite E, (date_loop_found db dc da [] Hdb Hdc).
    destruct (get_text dc) as [|x s] eqn:Et.
    { exfalso. now apply (date_like_nonempty _ Hdc). }
    eexists; eexists. split; [reflexivity |].
    split; [apply only_clock_read_refl |].
    split; [exact Htitle |]. cbn [title date link].
    split; [| apply link_of_shape].
    split; [discriminate | left; exact Hdc].
Qed.

Lemma rows_loop_invariant (rows : list row) :
  forall (posts : list post) (w : world) (lo : nat),
    Forall (post_invariant (read_between (clock w) lo (ticks w))) posts ->
    (lo <= ticks w)%nat ->
    exists posts' w',
      rows_loop rows posts w = (Ret posts', w')
      /\ only_clock_read w w'
      /\ Forall (post_invariant (read_between (clock w) lo (ticks w'))) posts'.
Proof.
  induction rows as [|cells rows IH]; intros posts w lo Hposts Hlo.
  - exists posts, w. repeat split; auto using only_clock_read_refl.
  - cbn [rows_loop]. unfold bind.
    destruct (parse_row_invariant cells w) as [r [w1 [E [Hw1 Hr]]]].
    rewrite E.
    assert (Hclk : clock w1 = clock w) by apply Hw1.
    assert (Hticks : (ticks w <= ticks w1)%nat) by apply Hw1.
    assert (Hposts1 : Forall (post_invariant
                                (read_between (clock w1) lo (ticks w1))) posts).
    { rewrite Hclk. revert Hposts. apply Forall_impl. intros p.
      apply post_invariant_mono. intros s. now apply read_between_mono. }
    destruct r as [p|].
    + assert (Hp : post_invariant (read_between (clock w1) lo (ticks w1)) p).
      { rewrite Hclk. revert Hr. apply post_invariant_mono.
        intros s [n [Hn ->]]. exists n. split; [lia | reflexivity]. }
      destruct (IH (posts ++ [p]) w1 lo) as [posts' [w' [E' [Hw' Hall]]]].
      * apply Forall_app. split; [exact Hposts1 | now constructor].
      * lia.
      * exists posts', w'. split; [exact E' |].
        split; [now apply (only_clock_read_trans w w1 w') |].
        now rewrite <- Hclk.
    + destruct (IH posts w1 lo Hposts1) as [posts' [w' [E' [Hw' Hall]]]];
        [lia |].
      exists posts', w'. split; [exact E' |].
      split; [now apply (only_clock_read_trans w w1 w') |].
      now rewrite <- Hclk.
Qed.

(** The parse returns posts that keep the invariant, having done nothing
    but read the clock, or raises because the markup was rejected. *)
Lemma parse_board_posts_cases (html_content : option pystr) (w : world) :
  (exists posts w',
      parse_board_posts html_content w = (Ret posts, w')
      /\ only_clock_read w w'
      /\ Forall (post_invariant
                   (read_between (clock w) (ticks w) (ticks w'))) posts)
  \/ (exists html,
         html_content = Some html /\ html <> []
         /\ BeautifulSoup html = None
         /\ parse_board_posts html_content w = (Raise ParserRejectedMarkup, w)).
Proof.
  unfold parse_board_posts.
  destruct html_content as [html|].
  2:{ left. exists [], w. repeat split; auto using only_clock_read_refl. }
  destruct html as [|c html].
  { left. exists [], w. repeat split; auto using only_clock_read_refl. }
  cbn [truthy negb].
  destruct (BeautifulSoup (c :: html)) as [soup|] eqn:E.
  - left. apply rows_loop_invariant; [constructor | lia].
  - right. exists (c :: html). repeat split; [discriminate | exact E].
Qed.

(** C10. [parse_board_posts] either returns posts, having done nothing
    but read the clock, or raises because [BeautifulSoup] rejected the
    markup.  Every post returned has a title of more than 5 characters, not
    empty and not purely numeric; a date that is not empty, being a text of
    at least 8 characters that holds [-], [.] or [/], or the [YYYY-MM-DD]
    text of a clock reading made during the parse; and a link that is empty
    or starts with [http]. *)
Theorem parse_board_posts_invariant (html_content : option pystr)
  (w : world) :
  (exists posts w',
      parse_board_posts html_content w = (Ret posts, w')
      /\ only_clock_read w w'
      /\ Forall (post_invariant
                   (read_between (clock w) (ticks w) (ticks w'))) posts)
  \/ (exists html,
         html_content = Some html /\ html <> []
         /\ BeautifulSoup html = None
         /\ parse_board_posts html_content w = (Raise ParserRejectedMarkup, w)).
Proof. apply parse_board_posts_cases. Qed.

End Posts.

(** ** The run *)

Section Pipeline.

Context {R : Runtime}.

Lemma bind_ret_run {A B} (m : M A) (f : A -> M B) (w w' : world) (a : A) :
  m w = (Ret a, w') -> bind m f w = f a w'.
Proof. intros H. unfold bind. now rewrite H. Qed.

Lemma ret_pair_inv {A} (a b : A) (w w' : world) :
  (Ret a, w) = (Ret b, w') -> a = b.
Proof. intros H. congruence. Qed.

Lemma is_today_post_run (d : pystr) (w : world) :
  is_today_post (VStr d) w
  = (Ret (contains d (strftime_Ymd (clock w (ticks w)))), tick w).
Proof. reflexivity. Qed.

Lemma send_webhook_run (self : SeoulMetroMonitor) (p : post)
  (mk : option pystr) (w : world) :
  exists b,
    send_webhook self p mk w
    = (Ret b,
       logged (Request (POST (webhook_url self)
                          (build_payload p mk (clock w (ticks w)))))
         (tick w)).
Proof.
  unfold send_webhook, bind, now, http, ret. cbn [clock ticks network trace].
  destruct (network w (trace w) _) as [resp|].
  - destruct (status_code resp =? 200)%Z; [exists true | exists false];
      reflexivity.
  - exists false. reflexivity.
Qed.

Lemma fetch_board_content_run (self : SeoulMetroMonitor) (w : world) :
  fetch_board_content self w
  = (Ret match network w (trace w) (GET (url self)) with
         | Some r => if (status_code r =? 200)%Z then Some (text r) else None
         | None => None
         end,
     logged (Request (GET (url self))) w).
Proof.
  unfold fetch_board_content, bind, http, ret.
  destruct (network w (trace w) (GET (url self))) as [r|]; [| reflexivity].
  destruct (status_code r =? 200)%Z; reflexivity.
Qed.

(** The loop never raises, changes the world only by clock readings and
    by what it logs, and its log is gated. *)
Lemma posts_loop_gated (self : SeoulMetroMonitor) (posts : list post) :
  forall (ns tc : nat) (w : world),
    exists r w' t,
      posts_loop self posts ns tc w = (Ret r, w')
      /\ trace w' = trace w ++ t
      /\ clock w' = clock w
      /\ network w' = network w
      /\ gated_log self (clock w) posts t.
Proof.
  induction posts as [|p posts IH]; intros ns tc w.
  - exists (ns, tc), w, []. cbn [posts_loop]. unfold ret.
    rewrite app_nil_r. repeat split. constructor.
  - cbn [posts_loop].
    rewrite (bind_ret_run _ _ _ _ _ (is_today_post_run (date p) w)).
    unfold bind at 1. cbn [log].
    destruct (contains (date p) (strftime_Ymd (clock w (ticks w)))) eqn:Et;
      cbn [negb].
    + destruct (check_keywords_loop_shape (lower (title p)) (keywords self))
        as [Ek | [k Ek]]; fold (check_keywords self (title p)) in Ek;
        rewrite Ek; unfold bind at 1; cbn [log].
      * destruct (IH ns (S tc)
                    (logged (Call_check_keywords (title p) (false, None))
                       (logged (Call_is_today_post (date p) true) (tick w))))
          as [r [w' [t [E [Ht [Hc [Hn Hg]]]]]]].
        exists r, w', (Call_is_today_post (date p) true
                       :: Call_check_keywords (title p) (false, None) :: t).
        split; [exact E |]. cbn [logged tick trace clock network] in *.
        split; [rewrite Ht, <- !app_assoc; reflexivity |].
        split; [exact Hc | split; [exact Hn |]].
        now apply (gated_no_keyword self (clock w) p posts t (ticks w)).
      * unfold bind at 1. cbn [log].
        set (w2 := logged (Call_send_webhook p (Some k))
                     (logged (Call_check_keywords (title p) (true, Some k))
                        (logged (Call_is_today_post (date p) true) (tick w)))).
        destruct (send_webhook_run self p (Some k) w2) as [b Eb].
        rewrite (bind_ret_run _ _ _ _ _ Eb).
        set (w3 := logged _ (tick w2)).
        assert (IH' : exists r w' t,
                   (if b then posts_loop self posts (S ns) (S tc)
                    else posts_loop self posts ns (S tc)) w3 = (Ret r, w')
                   /\ trace w' = trace w3 ++ t
                   /\ clock w' = clock w3
                   /\ network w' = network w3
                   /\ gated_log self (clock w3) posts t)
          by (destruct b; apply IH).
        destruct IH' as [r [w' [t [E [Ht [Hc [Hn Hg]]]]]]].
        exists r, w',
          (Call_is_today_post (date p) true
           :: Call_check_keywords (title p) (true, Some k)
           :: Call_send_webhook p (Some k)
           :: Request (POST (webhook_url self)
                         (build_payload p (Some k) (clock w (S (ticks w)))))
           :: t).
        split; [exact E |].
        subst w3 w2. cbn [logged tick trace clock network ticks] in *.
        split; [rewrite Ht, <- !app_assoc; reflexivity |].
        split; [exact Hc | split; [exact Hn |]].
        now apply (gated_notified self (clock w) p posts t (ticks w)
                     (S (ticks w)) k).
    + destruct (IH ns tc (logged (Call_is_today_post (date p) false) (tick w)))
        as [r [w' [t [E [Ht [Hc [Hn Hg]]]]]]].
      exists r, w', (Call_is_today_post (date p) false :: t).
      split; [exact E |]. cbn [logged tick trace clock network] in *.
      split; [rewrite Ht, <- !app_assoc; reflexivity |].
      split; [exact Hc | split; [exact Hn |]].
      now apply (gated_not_today self (clock w) p posts t (ticks w)).
Qed.

(** *** What a gated log says of its events *)

Lemma gated_head (self : SeoulMetroMonitor) (clk : nat -> datetime)
  (ps : list post) (t : list event) :
  gated_log self clk ps t ->
  t = [] \/ exists d b t', t = Call_is_today_post d b :: t'.
Proof. intros H. destruct H; [now left | right ..]; eauto. Qed.

(** A POST stands right after the today check, the keyword check and the
    call of [send_webhook] of one post, the first answering [True] and the
    second a match. *)
Lemma gated_post (self : SeoulMetroMonitor) (clk : nat -> datetime)
  (ps : list post) (t : list event) :
  gated_log self clk ps t ->
  forall before u json after,
    t = before ++ Request (POST u json) :: after ->
    exists before' p k n m,
      before = before' ++ [ Call_is_today_post (date p) true;
                            Call_check_keywords (title p) (true, Some k);
                            Call_send_webhook p (Some k) ]
      /\ In p ps
      /\ contains (date p) (strftime_Ymd (clk n)) = true
      /\ check_keywords self (title p) = (true, Some k)
      /\ u = webhook_url self
      /\ json = build_payload p (Some k) (clk m).
Proof.
  induction 1 as [| p ps t n Hd Hg IH | p ps t n Hd Hk Hg IH
                  | p ps t n m k Hd Hk Hg IH];
    intros before u json after E.
  - destruct before; discriminate.
  - peel E.
    destruct (IH _ _ _ _ E) as [b' [q [k [n' [m [-> [Hin Hrest]]]]]]].
    exists (Call_is_today_post (date p) false :: b'), q, k, n', m.
    split; [reflexivity | split; [now right | exact Hrest]].
  - peel E. peel E.
    destruct (IH _ _ _ _ E) as [b' [q [k [n' [m [-> [Hin Hrest]]]]]]].
    exists (Call_is_today_post (date p) true
            :: Call_check_keywords (title p) (false, None) :: b'), q, k, n', m.
    split; [reflexivity | split; [now right | exact Hrest]].
  - peel E. peel E. peel E. peel E.
    + injection E as <- <- <-.
      exists [], p, k, n, m. repeat split; auto. now left.
    + destruct (IH _ _ _ _ E) as [b' [q [k' [n' [m' [-> [Hin Hrest]]]]]]].
      exists (Call_is_today_post (date p) true
              :: Call_check_keywords (title p) (true, Some k)
              :: Call_send_webhook p (Some k)
              :: Request (POST (webhook_url self)
                            (build_payload p (Some k) (clk m))) :: b'),
        q, k', n', m'.
      split; [reflexivity | split; [now right | exact Hrest]].
Qed.

(** After a today check that answered [False] comes the today check of
    the next post, or nothing. *)
Lemma gated_skip (self : SeoulMetroMonitor) (clk : nat -> datetime)
  (ps : list post) (t : list event) :
  gated_log self clk ps t ->
  forall before d after,
    t = before ++ Call_is_today_post d false :: after ->
    (exists p n, In p ps /\ d = date p
                 /\ contains (date p) (strftime_Ymd (clk n)) = false)
    /\ (after = [] \/ exists d' b after', after = Call_is_today_post d' b :: after').
Proof.
  induction 1 as [| p ps t n Hd Hg IH | p ps t n Hd Hk Hg IH
                  | p ps t n m k Hd Hk Hg IH];
    intros before d after E.
  - destruct before; discriminate.
  - peel E.
    + injection E as <- <-. split; [| exact (gated_head _ _ _ _ Hg)].
      exists p, n. repeat split; auto. now left.
    + destruct (IH _ _ _ E) as [[q [n' [Hin Hq]]] Hafter].
      split; [| exact Hafter]. exists q, n'. split; [now right | exact Hq].
  - peel E. peel E.
    destruct (IH _ _ _ E) as [[q [n' [Hin Hq]]] Hafter].
    split; [| exact Hafter]. exists q, n'. split; [now right | exact Hq].
  - peel E. peel E. peel E. peel E.
    destruct (IH _ _ _ E) as [[q [n' [Hin Hq]]] Hafter].
    split; [| exact Hafter]. exists q, n'. split; [now right | exact Hq].
Qed.

(** A keyword check stands right after a today check that answered
    [True], and a call of [send_webhook] right after a keyword check that
    answered a match. *)
Lemma gated_calls (self : SeoulMetroMonitor) (clk : nat -> datetime)
  (ps : list post) (t : list event) :
  gated_log self clk ps t ->
  (forall before ti r after,
      t = before ++ Call_check_keywords ti r :: after ->
      exists before' p,
        before = before' ++ [Call_is_today_post (date p) true]
        /\ In p ps /\ ti = title p /\ r = check_keywords self (title p))
  /\ (forall before q mk after,
        t = before ++ Call_send_webhook q mk :: after ->
        exists before' k,
          before = before' ++ [ Call_is_today_post (date q) true;
                                Call_check_keywords (title q) (true, Some k) ]
          /\ In q ps /\ mk = Some k
          /\ check_keywords self (title q) = (true, Some k)).
Proof.
  induction 1 as [| p ps t n Hd Hg [IH1 IH2] | p ps t n Hd Hk Hg [IH1 IH2]
                  | p ps t n m k Hd Hk Hg [IH1 IH2]]; split.
  - intros before ti r after E. destruct before; discriminate.
  - intros before q mk after E. destruct before; discriminate.
  - intros before ti r after E. peel E.
    destruct (IH1 _ _ _ _ E) as [b' [q [-> [Hin Hrest]]]].
    exists (Call_is_today_post (date p) false :: b'), q.
    split; [reflexivity | split; [now right | exact Hrest]].
  - intros before q mk after E. peel E.
    destruct (IH2 _ _ _ _ E) as [b' [k [-> [Hin Hrest]]]].
    exists (Call_is_today_post (date p) false :: b'), k.
    split; [reflexivity | split; [now right | exact Hrest]].
  - intros before ti r after E. peel E. peel E.
    + injection E as <- <- <-. exists [], p.
      repeat split; auto; try (now left); try (now symmetry).
    + destruct (IH1 _ _ _ _ E) as [b' [q [-> [Hin Hrest]]]].
      exists (Call_is_today_post (date p) true
              :: Call_check_keywords (title p) (false, None) :: b'), q.
      split; [reflexivity | split; [now right | exact Hrest]].
  - intros before q mk after E. peel E. peel E.
    destruct (IH2 _ _ _ _ E) as [b' [k [-> [Hin Hrest]]]].
    exists (Call_is_today_post (date p) true
            :: Call_check_keywords (title p) (false, None) :: b'), k.
    split; [reflexivity | split; [now right | exact Hrest]].
  - intros before ti r after E. peel E. peel E.
    + injection E as <- <- <-. exists [], p.
      repeat split; auto; try (now left); try (now symmetry).
    + peel E. peel E.
      destruct (IH1 _ _ _ _ E) as [b' [q [-> [Hin Hrest]]]].
      exists (Call_is_today_post (date p) true
              :: Call_check_keywords (title p) (true, Some k)
              :: Call_send_webhook p (Some k)
              :: Request (POST (webhook_url self)
                            (build_payload p (Some k) (clk m))) :: b'), q.
      split; [reflexivity | split; [now right | exact Hrest]].
  - intros before q mk after E. peel E. peel E. peel E.
    + injection E as <- <- <-. exists [], k.
      repeat split; auto. now left.
    + peel E.
      destruct (IH2 _ _ _ _ E) as [b' [k' [-> [Hin Hrest]]]].
      exists (Call_is_today_post (date p) true
              :: Call_check_keywords (title p) (true, Some k)
              :: Call_send_webhook p (Some k)
              :: Request (POST (webhook_url self)
                            (build_payload p (Some k) (clk m))) :: b'), k'.
      split; [reflexivity | split; [now right | exact Hrest]].
Qed.

(** *** The whole of [monitor_posts] *)

(** The three ways a run goes: no content and an early return; a parse
    that raises; a parse that returns posts, followed by the loop. *)
Lemma monitor_posts_cases (self : SeoulMetroMonitor) (w : world) :
  let w1 := logged (Request (GET (url self))) (tick w) in
  exists html_content,
    fetch_board_content self (tick w) = (Ret html_content, w1)
    /\ ((no_content html_content = true
         /\ monitor_posts self w = (Ret tt, w1))
        \/ (no_content html_content = false
            /\ exists html,
                html_content = Some html /\ BeautifulSoup html = None
                /\ parse_board_posts html_content w1
                   = (Raise ParserRejectedMarkup, w1)
                /\ monitor_posts self w = (Raise ParserRejectedMarkup, w1))
        \/ (no_content html_content = false
            /\ exists posts w2 w3 t,
                parse_board_posts html_content w1 = (Ret posts, w2)
                /\ only_clock_read w1 w2
                /\ monitor_posts self w = (Ret tt, w3)
                /\ trace w3 = trace w2 ++ t
                /\ gated_log self (clock w) posts t
                /\ (posts = [] -> w3 = w2))).
Proof.
  intros w1. eexists. split; [apply fetch_board_content_run |].
  change (network (tick w)) with (network w).
  change (trace (tick w)) with (trace w).
  set (html_content := match network w (trace w) (GET (url self)) with
                       | Some r => _ | None => None end).
  assert (Hm : monitor_posts self w =
               if no_content html_content then (Ret tt, w1)
               else
                 match parse_board_posts html_content w1 with
                 | (Ret [], w2) => (Ret tt, w2)
                 | (Ret (p :: ps), w2) =>
                   bind (posts_loop self (p :: ps) 0 0) (fun _ => ret tt) w2
                 | (Raise e, w2) => (Raise e, w2)
                 end).
  { unfold monitor_posts.
    rewrite (bind_ret_run now _ w (tick w) (clock w (ticks w)) eq_refl).
    rewrite (bind_ret_run _ _ _ _ _ (fetch_board_content_run self (tick w))).
    change (network (tick w)) with (network w).
    change (trace (tick w)) with (trace w).
    fold html_content. fold w1.
    destruct (no_content html_content); [reflexivity |].
    unfold bind at 1.
    destruct (parse_board_posts html_content w1) as [[[|p ps]|e] w2];
      reflexivity. }
  destruct (no_content html_content) eqn:Enc; [left; now split |].
  right.
  destruct (parse_board_posts_cases html_content w1)
    as [[posts [w2 [Ep [Hw2 _]]]] | [html [Eh [_ [Eb Ep]]]]].
  - right. split; [reflexivity |]. rewrite Ep in Hm.
    destruct posts as [|p ps].
    + exists [], w2, w2, []. rewrite app_nil_r.
      repeat split; try assumption; try apply Hw2. constructor.
    + destruct (posts_loop_gated self (p :: ps) 0 0 w2)
        as [r [w3 [t [El [Ht [Hc [Hn Hg]]]]]]].
      rewrite (bind_ret_run _ _ _ _ _ El) in Hm.
      exists (p :: ps), w2, w3, t.
      split; [exact Ep | split; [exact Hw2 | split; [exact Hm |]]].
      split; [exact Ht | split; [| discriminate]].
      replace (clock w) with (clock w2); [exact Hg |].
      destruct Hw2 as [Hclk _]. rewrite Hclk. reflexivity.
  - left. split; [reflexivity |]. exists html. rewrite Ep in Hm.
    repeat split; assumption.
Qed.

(** C1. The log of a run is the GET followed by the log of the loop over
    the parsed posts.  In it a POST to the webhook stands only right after
    the today check, the keyword check and the call of [send_webhook] of
    one post, the today check having answered [True] on the post's date
    (which held the clock's date) and the keyword check a match on its
    title; the POST carries that post and that keyword.  After a today check
    that answered [False] comes the next post's today check or nothing: the
    post reaches neither [check_keywords] nor [send_webhook].  A keyword
    check stands only right after a today check that answered [True], and a
    call of [send_webhook] only right after a keyword check that matched. *)
Theorem monitor_posts_gates_notifications (self : SeoulMetroMonitor)
  (w : world) :
  exists posts t,
    trace (snd (monitor_posts self w))
    = trace w ++ Request (GET (url self)) :: t
    /\ (t = [] \/ exists html_content w1 w2,
                   parse_board_posts html_content w1 = (Ret posts, w2))
    /\ (forall before u json after,
          t = before ++ Request (POST u json) :: after ->
          exists before' p k n m,
            before = before' ++ [ Call_is_today_post (date p) true;
                                  Call_check_keywords (title p) (true, Some k);
                                  Call_send_webhook p (Some k) ]
            /\ In p posts
            /\ contains (date p) (strftime_Ymd (clock w n)) = true
            /\ check_keywords self (title p) = (true, Some k)
            /\ u = webhook_url self
            /\ json = build_payload p (Some k) (clock w m))
    /\ (forall before d after,
          t = before ++ Call_is_today_post d false :: after ->
          (exists p n, In p posts /\ d = date p
                       /\ contains (date p) (strftime_Ymd (clock w n)) = false)
          /\ (after = []
              \/ exists d' b after', after = Call_is_today_post d' b :: after'))
    /\ (forall before ti r after,
          t = before ++ Call_check_keywords ti r :: after ->
          exists before' p,
            before = before' ++ [Call_is_today_post (date p) true]
            /\ In p posts /\ ti = title p
            /\ r = check_keywords self (title p))
    /\ (forall before q mk after,
          t = before ++ Call_send_webhook q mk :: after ->
          exists before' k,
            before = before' ++ [ Call_is_today_post (date q) true;
                                  Call_check_keywords (title q) (true, Some k) ]
            /\ In q posts /\ mk = Some k
            /\ check_keywords self (title q) = (true, Some k)).
Proof.
  assert (Hlog : exists posts t,
             trace (snd (monitor_posts self w))
             = trace w ++ Request (GET (url self)) :: t
             /\ (t = [] \/ exists html_content w1 w2,
                            parse_board_posts html_content w1 = (Ret posts, w2))
             /\ gated_log self (clock w) posts t).
  { destruct (monitor_posts_cases self w)
      as [hc [_ [[_ Hm] | [[_ [html [_ [_ [_ Hm]]]]]
                          | [_ [posts [w2 [w3 [t [Ep [Hw2 [Hm [Ht [Hg _]]]]]]]]]]]]]].
    - exists [], []. rewrite Hm. cbn [snd logged tick trace].
      repeat split; [now left | constructor].
    - exists [], []. rewrite Hm. cbn [snd logged tick trace].
      repeat split; [now left | constructor].
    - exists posts, t. rewrite Hm. cbn [snd]. rewrite Ht.
      destruct Hw2 as [_ [_ [Htr _]]]. rewrite Htr.
      cbn [logged tick trace]. rewrite <- app_assoc.
      split; [reflexivity | split; [| exact Hg]].
      right. eauto. }
  destruct Hlog as [posts [t [Ht [Hp Hg]]]]. exists posts, t.
  split; [exact Ht | split; [exact Hp |]].
  split; [exact (gated_post _ _ _ _ Hg) |].
  split; [exact (gated_skip _ _ _ _ Hg) |].
  exact (gated_calls _ _ _ _ Hg).
Qed.

(** The early returns of a run.  The fetch gives no content exactly when
    the GET raised or came
    back with a status other than 200.  When the fetch gives no content, or
    the parse of what it gave returns no post, [monitor_posts] returns
    without raising and the GET is all it logged: no POST was sent; the
    script started with a webhook URL then ends with exit code 0. *)
Theorem monitor_posts_nothing_to_do (self : SeoulMetroMonitor)
  (w w' : world) :
  let get := GET (url self) in
  let w1 := logged (Request get) (tick w) in
  (fetch_board_content self (tick w) = (Ret None, w1)
   <-> (network w (trace w) get = None
        \/ exists r, network w (trace w) get = Some r
                     /\ status_code r <> 200%Z))
  /\ (nothing_to_do self w w' ->
      monitor_posts self w = (Ret tt, w')
      /\ trace w' = trace w ++ [Request get]
      /\ forall webhook,
          webhook <> [] -> self = init webhook ->
          main (Some webhook) w = (Ret tt, w')
          /\ exit_code (fst (main (Some webhook) w)) = 0%Z).
Proof.
  intros get w1. split.
  - rewrite fetch_board_content_run.
    change (network (tick w)) with (network w).
    change (trace (tick w)) with (trace w). fold get.
    destruct (network w (trace w) get) as [r|].
    + destruct (Z.eqb_spec (status_code r) 200) as [E | E]; split.
      * discriminate.
      * intros [H | [r' [Hr Hs]]]; [discriminate | congruence].
      * intros _. right. now exists r.
      * reflexivity.
    + split; [intros _; now left | reflexivity].
  - intros Hn.
    assert (Hm : monitor_posts self w = (Ret tt, w')
                 /\ trace w' = trace w ++ [Request get]).
    { destruct (monitor_posts_cases self w)
        as [hc [Ef [[Enc Hm] | [[Enc [html [Eh [_ [Ep Hm]]]]]
                              | [Enc [posts [w2 [w3 [t [Ep [Hw2 [Hm [Ht [Hg Hnil]]]]]]]]]]]]]];
        fold get in Ef; fold w1 in Ef;
        destruct Hn as [[Ef' ->] | [html' [Ef' Ep']]];
        fold get in Ef'; fold w1 in Ef';
        rewrite Ef in Ef'; injection Ef' as ->.
      - split; [exact Hm | reflexivity].
      - destruct html' as [|c html']; [| discriminate Enc].
        cbn in Ep'. injection Ep' as <-. split; [exact Hm | reflexivity].
      - discriminate Enc.
      - congruence.
      - discriminate Enc.
      - rewrite Ep in Ep'. injection Ep' as -> ->.
        rewrite Hnil in Hm by reflexivity. split; [exact Hm |].
        destruct Hw2 as [_ [_ [Htr _]]]. rewrite Htr. reflexivity. }
    destruct Hm as [Hm Htr]. split; [exact Hm | split; [exact Htr |]].
    intros webhook Hne ->. unfold main.
    destruct webhook as [|c webhook]; [congruence |]. cbn [truthy negb].
    rewrite Hm. split; reflexivity.
Qed.

(** A body the parser rejects: the exception of the constructor, which
    stands before the [try] of [parse_board_posts], leaves [monitor_posts]
    right after the GET. *)
Lemma monitor_posts_raises (self : SeoulMetroMonitor) (w : world) :
  rejected self w ->
  monitor_posts self w
  = (Raise ParserRejectedMarkup, logged (Request (GET (url self))) (tick w)).
Proof.
  intros [resp [Hn [Hs [Hne Hb]]]]. unfold monitor_posts.
  rewrite (bind_ret_run now _ w (tick w) (clock w (ticks w)) eq_refl).
  rewrite (bind_ret_run _ _ _ _ _ (fetch_board_content_run self (tick w))).
  change (network (tick w)) with (network w).
  change (trace (tick w)) with (trace w).
  rewrite Hn. apply Z.eqb_eq in Hs. rewrite Hs.
  destruct (text resp) as [|c html] eqn:Et; [congruence |].
  cbn [no_content truthy negb]. unfold bind, parse_board_posts.
  cbn [truthy negb]. rewrite Hb. reflexivity.
Qed.

(** Whatever is fetched, a run returns or raises by the parser, and it
    raises exactly on a body the parser rejects. *)
Lemma monitor_posts_returns_iff (self : SeoulMetroMonitor) (w : world) :
  ((exists w', monitor_posts self w = (Ret tt, w')) <-> ~ rejected self w)
  /\ ((exists w', monitor_posts self w = (Raise ParserRejectedMarkup, w'))
      <-> rejected self w).
Proof.
  assert (Hcases : (exists w', monitor_posts self w = (Ret tt, w'))
                   \/ rejected self w).
  { destruct (monitor_posts_cases self w)
      as [hc [Ef [[_ Hm] | [[Enc [html [Eh [Hb [_ Hm]]]]]
                           | [_ [posts [w2 [w3 [t [_ [_ [Hm _]]]]]]]]]]]].
    - left. eauto.
    - right. rewrite fetch_board_content_run in Ef.
      change (network (tick w)) with (network w) in Ef.
      change (trace (tick w)) with (trace w) in Ef.
      apply ret_pair_inv in Ef. rewrite Eh in Ef.
      destruct (network w (trace w) (GET (url self))) as [resp|] eqn:En;
        [| discriminate Ef].
      destruct (Z.eqb_spec (status_code resp) 200) as [Es | Es];
        [| discriminate Ef].
      injection Ef as Ef. exists resp. rewrite Ef.
      split; [exact En | split; [exact Es | split; [| exact Hb]]].
      intros ->. rewrite Eh in Enc. discriminate Enc.
    - left. eauto. }
  split; split.
  - intros [w' Hm] Hr. rewrite (monitor_posts_raises self w Hr) in Hm.
    discriminate.
  - intros Hn. destruct Hcases as [H | H]; [exact H | contradiction].
  - intros [w' Hm]. destruct Hcases as [[w2 H] | H]; [congruence | exact H].
  - intros Hr. eexists. now apply monitor_posts_raises.
Qed.

(** C8, where the code departs from it.  When the board answers 200 with
    a body that [BeautifulSoup] rejects, the parse does not return an empty
    list: the constructor raises before the [try], the exception leaves
    [parse_board_posts] and [monitor_posts], and the script started with a
    webhook URL ends with exit code 1.  No POST is sent: the GET is all the
    run logged. *)
Theorem monitor_posts_rejected_markup (self : SeoulMetroMonitor)
  (w : world) :
  rejected self w ->
  let w1 := logged (Request (GET (url self))) (tick w) in
  (exists html,
      fetch_board_content self (tick w) = (Ret (Some html), w1)
      /\ parse_board_posts (Some html) w1 = (Raise ParserRejectedMarkup, w1))
  /\ monitor_posts self w = (Raise ParserRejectedMarkup, w1)
  /\ trace w1 = trace w ++ [Request (GET (url self))]
  /\ forall webhook,
      webhook <> [] -> self = init webhook ->
      exit_code (fst (main (Some webhook) w)) = 1%Z.
Proof.
  intros Hr w1. pose proof (monitor_posts_raises self w Hr) as Hm.
  destruct Hr as [resp [Hn [Hs [Hne Hb]]]].
  split; [| split; [exact Hm | split; [reflexivity |]]].
  - exists (text resp). split.
    + rewrite fetch_board_content_run.
      change (network (tick w)) with (network w).
      change (trace (tick w)) with (trace w).
      rewrite Hn. apply Z.eqb_eq in Hs. now rewrite Hs.
    + unfold parse_board_posts.
      destruct (text resp) as [|c html]; [congruence |].
      cbn [truthy negb]. now rewrite Hb.
  - intros webhook Hw ->. unfold main.
    destruct webhook as [|c webhook]; [congruence |]. cbn [truthy negb].
    rewrite Hm. reflexivity.
Qed.

(** C9.  When [WEBHOOK_URL] is not supplied, the script exits with code 1
    and the world is as it was: nothing was read, sent or logged.  With a
    value the script runs [monitor_posts]; every run that completes ends
    with exit code 0, and a run completes exactly when the parser does not
    reject what was fetched: what the posts hold and what the webhook
    answers has no part in it.  A run the parser stops by its exception ends
    with exit code 1. *)
Theorem main_exit_code (environ_WEBHOOK_URL : option pystr) (w : world) :
  (not_supplied environ_WEBHOOK_URL ->
   main environ_WEBHOOK_URL w = (Raise (SystemExit 1), w)
   /\ exit_code (fst (main environ_WEBHOOK_URL w)) = 1%Z)
  /\ (forall webhook,
        environ_WEBHOOK_URL = Some webhook -> webhook <> [] ->
        main environ_WEBHOOK_URL w = monitor_posts (init webhook) w
        /\ (forall w',
              main environ_WEBHOOK_URL w = (Ret tt, w') ->
              exit_code (fst (main environ_WEBHOOK_URL w)) = 0%Z)
        /\ ((exists w', main environ_WEBHOOK_URL w = (Ret tt, w'))
            <-> ~ rejected (init webhook) w)
        /\ (rejected (init webhook) w ->
            (exists w',
                main environ_WEBHOOK_URL w = (Raise ParserRejectedMarkup, w'))
            /\ exit_code (fst (main environ_WEBHOOK_URL w)) = 1%Z)).
Proof.
  split.
  - intros [-> | ->]; split; reflexivity.
  - intros webhook -> Hne.
    assert (Em : main (Some webhook) w = monitor_posts (init webhook) w).
    { unfold main. destruct webhook as [|c webhook]; [congruence |].
      reflexivity. }
    rewrite Em.
    destruct (monitor_posts_returns_iff (init webhook) w) as [Hret Hraise].
    split; [reflexivity | split; [| split; [exact Hret |]]].
    + intros w' ->. reflexivity.
    + intros Hr. rewrite (monitor_posts_raises _ _ Hr).
      split; [eauto | reflexivity].
Qed.

End Pipeline.

(** ** The run on the sample board *)

(** One row of today with a keyword, one row of yesterday with a keyword:
    one POST, for the row of today, with the keyword ["장애인"]. *)
Example sample_run_log :
  sample_log
  = [ Request (GET board_url);
      Call_is_today_post example_date true;
      Call_check_keywords example_title (true, Some example_keyword);
      Call_send_webhook example_post (Some example_keyword);
      Request (POST sample_hook example_json);
      Call_is_today_post yesterday_date false ].
Proof. vm_compute. reflexivity. Qed.

Lemma monitor_posts_gates_notifications_witness :
  exists before' p k n m,
    firstn 3 (tl sample_log)
    = before' ++ [ Call_is_today_post (date p) true;
                   Call_check_keywords (title p) (true, Some k);
                   Call_send_webhook p (Some k) ]
    /\ contains (date p) (strftime_Ymd (clock board_day n)) = true
    /\ check_keywords (R := sample_runtime sample_board) (init sample_hook)
         (title p) = (true, Some k)
    /\ example_json = build_payload p (Some k) (clock board_day m).
Proof.
  destruct (monitor_posts_gates_notifications
              (R := sample_runtime sample_board) (init sample_hook) board_day)
    as [posts [t [Ht [_ [HA _]]]]].
  vm_compute in Ht. injection Ht as Ht.
  destruct (HA (firstn 3 (tl sample_log)) sample_hook example_json
              (skipn 5 sample_log))
    as [b' [p [k [n [m [H1 [_ [H3 [H4 [_ H6]]]]]]]]]].
  - rewrite <- Ht. vm_compute. reflexivity.
  - exists b', p, k, n, m. repeat split; assumption.
Defined.

Lemma monitor_posts_nothing_to_do_witness :
  let w1 := logged (Request (GET board_url)) (tick down_day) in
  nothing_to_do (R := sample_runtime sample_board) (init sample_hook)
    down_day w1
  /\ monitor_posts (R := sample_runtime sample_board) (init sample_hook)
       down_day = (Ret tt, w1)
  /\ trace w1 = [Request (GET board_url)]
  /\ exit_code (fst (main (R := sample_runtime sample_board)
                       (Some sample_hook) down_day)) = 0%Z.
Proof.
  intros w1.
  assert (Hn : nothing_to_do (R := sample_runtime sample_board)
                 (init sample_hook) down_day w1).
  { left. split; [vm_compute; reflexivity | reflexivity]. }
  destruct (proj2 (monitor_posts_nothing_to_do
                     (R := sample_runtime sample_board)
                     (init sample_hook) down_day w1) Hn)
    as [Hm [Ht Hmain]].
  split; [exact Hn | split; [exact Hm | split; [exact Ht |]]].
  apply (Hmain sample_hook); [vm_compute; discriminate | reflexivity].
Defined.

Lemma down_day_not_rejected :
  ~ rejected (R := sample_runtime sample_board) (init sample_hook) down_day.
Proof.
  intros [resp [Hn [Hs _]]]. cbn in Hn. injection Hn as <-.
  vm_compute in Hs. discriminate.
Qed.

Lemma main_exit_code_witness :
  not_supplied None
  /\ exit_code (fst (main (R := sample_runtime []) None may_day)) = 1%Z
  /\ exists w',
      main (R := sample_runtime sample_board) (Some sample_hook) down_day
      = (Ret tt, w')
      /\ exit_code (fst (main (R := sample_runtime sample_board)
                           (Some sample_hook) down_day)) = 0%Z.
Proof.
  assert (Hn : not_supplied None) by (now left).
  split; [exact Hn |]. split.
  - apply (proj1 (main_exit_code (R := sample_runtime []) None may_day) Hn).
  - destruct (proj2 (main_exit_code (R := sample_runtime sample_board)
                       (Some sample_hook) down_day) sample_hook eq_refl)
      as [_ [H0 [Hiff _]]]; [vm_compute; discriminate |].
    destruct (proj2 Hiff down_day_not_rejected) as [w' Hw'].
    exists w'. split; [exact Hw' | exact (H0 w' Hw')].
Defined.

Lemma rejected_day_rejected :
  rejected (R := rejecting_runtime) (init sample_hook) rejected_day.
Proof.
  exists {| status_code := 200; text := rejected_markup |}.
  split; [reflexivity |]. split; [reflexivity |].
  split; [vm_compute; discriminate | vm_compute; reflexivity].
Qed.

Lemma monitor_posts_rejected_markup_witness :
  rejected (R := rejecting_runtime) (init sample_hook) rejected_day
  /\ monitor_posts (R := rejecting_runtime) (init sample_hook) rejected_day
     = (Raise ParserRejectedMarkup,
        logged (Request (GET board_url)) (tick rejected_day))
  /\ exit_code (fst (main (R := rejecting_runtime) (Some sample_hook)
                       rejected_day)) = 1%Z.
Proof.
  split; [exact rejected_day_rejected |].
  destruct (monitor_posts_rejected_markup (R := rejecting_runtime)
              (init sample_hook) rejected_day rejected_day_rejected)
    as [_ [Hm [_ Hmain]]].
  split; [exact Hm |].
  apply (Hmain sample_hook); [vm_compute; discriminate | reflexivity].
Defined.

(** * Further properties of the script *)

(** ** The fetch *)

(** X1. [fetch_board_content] sends one GET to the board URL and nothing
    else, does not read the clock and does not raise; it returns the body,
    be it empty, exactly when the answer has status 200, and [None]
    otherwise. *)
Theorem fetch_board_content_exact (self : SeoulMetroMonitor) (w : world) :
  exists r,
    fetch_board_content self w
    = (Ret r, logged (Request (GET (url self))) w)
    /\ (forall html,
          r = Some html
          <-> exists resp, network w (trace w) (GET (url self)) = Some resp
                           /\ status_code resp = 200%Z
                           /\ text resp = html)
    /\ (r = None
        <-> network w (trace w) (GET (url self)) = None
            \/ exists resp, network w (trace w) (GET (url self)) = Some resp
                            /\ status_code resp <> 200%Z).
Proof.
  eexists. split; [apply fetch_board_content_run |].
  destruct (network w (trace w) (GET (url self))) as [resp|].
  - destruct (Z.eqb_spec (status_code resp) 200) as [E | E]; split.
    + intros html. split.
      * intros H. injection H as <-. now exists resp.
      * intros [r' [Hr [_ <-]]]. now injection Hr as <-.
    + split; [discriminate |].
      intros [H | [r' [Hr Hs]]]; [discriminate | congruence].
    + intros html. split; [discriminate |].
      intros [r' [Hr [Hs _]]]. congruence.
    + split; [intros _; right; now exists resp | reflexivity].
  - split.
    + intros html. split; [discriminate | intros [r' [Hr _]]; discriminate].
    + split; [intros _; now left | reflexivity].
Qed.

(** ** Where the rows come from *)

Lemma find_in_app {A} (f : A -> bool) (l1 l2 : list A) :
  find f (l1 ++ l2)
  = match find f l1 with Some x => Some x | None => find f l2 end.
Proof.
  induction l1 as [|x l1 IH]; [reflexivity |]. cbn [app find].
  destruct (f x); [reflexivity | exact IH].
Qed.

Lemma select_rows_find (s : soup) (selectors : list string)
  (rows : list row) :
  select_rows s selectors rows
  = match find nonempty (map (select s) selectors) with
    | Some l => l
    | None => match selectors with [] => rows | _ :: _ => [] end
    end.
Proof.
  revert rows. induction selectors as [|sel rest IH]; intros rows;
    [reflexivity |].
  cbn [select_rows map find].
  destruct (select s sel) as [|r l]; cbn [nonempty]; [| reflexivity].
  rewrite IH. destruct (find nonempty (map (select s) rest));
    [reflexivity | now destruct rest].
Qed.

Section RowSource.

Context {R : Runtime}.

Lemma parse_rows_choice (html : pystr) (sp : soup) (w : world) :
  html <> [] -> BeautifulSoup html = Some sp ->
  parse_board_posts (Some html) w
  = rows_loop (first_nonempty (row_candidates sp)) [] w.
Proof.
  intros Hne E. unfold parse_board_posts.
  destruct html as [|c html]; [congruence |]. cbn [truthy negb].
  rewrite E, select_rows_find.
  unfold first_nonempty, row_candidates. rewrite find_in_app.
  destruct (find nonempty (map (select sp) possible_selectors))
    as [l|] eqn:F.
  - apply find_some in F. destruct F as [_ F].
    destruct l; [discriminate | reflexivity].
  - cbn [possible_selectors find]. destruct (find_all_tr sp); reflexivity.
Qed.

(** X2. The selector loop returns the answer of the first selector, in the
    order of the list, whose answer is not empty, and the empty list when
    every answer is empty; [parse_board_posts] then parses the rows of the
    first answer that is not empty among those of the four selectors and
    of [find_all('tr')], in this order, and no row when all are empty. *)
Theorem parse_board_posts_row_source (html : pystr) (sp : soup)
  (w : world) :
  (forall selectors,
      selectors <> [] ->
      select_rows sp selectors []
      = first_nonempty (map (select sp) selectors))
  /\ (html <> [] -> BeautifulSoup html = Some sp ->
      parse_board_posts (Some html) w
      = rows_loop (first_nonempty (row_candidates sp)) [] w).
Proof.
  split.
  - intros selectors Hne. rewrite select_rows_find. unfold first_nonempty.
    destruct (find nonempty (map (select sp) selectors));
      [reflexivity | now destruct selectors].
  - apply parse_rows_choice.
Qed.

End RowSource.

(** ** Rows and posts, one for one *)

Section RowsInOrder.

Context {R : Runtime}.

Lemma has_title_true (cells : row) :
  has_title cells = true ->
  (3 <= List.length cells)%nat
  /\ exists before c after,
       cells = before ++ c :: after
       /\ Forall (fun x => ~ title_like (get_text x)) before
       /\ title_like (get_text c).
Proof.
  unfold has_title. rewrite andb_true_iff, Nat.leb_le, existsb_exists.
  intros [Hlen [c [Hin Hc]]]. split; [exact Hlen |].
  destruct (first_title_cell cells) as [Hno | Hyes]; [| exact Hyes].
  exfalso. apply (Hno c Hin). now apply title_test_iff.
Qed.

Lemma has_title_false (cells : row) :
  has_title cells = false ->
  (List.length cells < 3)%nat
  \/ forall c, In c cells -> ~ title_like (get_text c).
Proof.
  unfold has_title. rewrite andb_false_iff, Nat.leb_gt.
  intros [H | H]; [now left | right].
  intros c Hin Hc. apply title_test_iff in Hc.
  assert (E : existsb (fun c => title_test (get_text c)) cells = true)
    by (apply existsb_exists; now exists c).
  congruence.
Qed.

Lemma has_date_false (cells : row) :
  has_date cells = false ->
  forall c, In c cells -> ~ date_like (get_text c).
Proof.
  unfold has_date. intros H c Hin Hc. apply date_test_iff in Hc.
  assert (E : existsb (fun c => date_test (get_text c)) cells = true)
    by (apply existsb_exists; now exists c).
  congruence.
Qed.

Lemma has_date_true (cells : row) :
  has_date cells = true -> date_loop (rev cells) [] <> [].
Proof.
  unfold has_date. rewrite existsb_exists. intros [c [Hin Hc]].
  apply date_test_iff in Hc.
  destruct (first_date_cell (rev cells))
    as [Hno | [db [dc [da [E [Hdb Hdc]]]]]].
  - exfalso. apply (Hno c); [now apply in_rev in Hin | exact Hc].
  - rewrite E, (date_loop_found db dc da [] Hdb Hdc).
    now apply date_like_nonempty.
Qed.

(** What a row gives, by its two tests. *)
Lemma parse_row_tests (cells : row) (w : world) :
  (has_title cells = false -> parse_row cells w = (Ret None, w))
  /\ (has_title cells = true ->
      exists p,
        from_row p cells
        /\ parse_row cells w
           = (Ret (Some p), if has_date cells then w else tick w)).
Proof.
  split.
  - intros H. destruct (has_title_false cells H) as [Hs | Hno].
    + now apply parse_row_short.
    + now apply parse_row_no_title.
  - intros H. destruct (has_title_true cells H)
      as [Hlen [tb [tc [ta [E [Hb Hc]]]]]].
    subst cells. rewrite (parse_row_post tb tc ta w Hlen Hb Hc).
    destruct (has_date (tb ++ tc :: ta)) eqn:Ed.
    + apply has_date_true in Ed.
      destruct (date_loop (rev (tb ++ tc :: ta)) []) as [|x s];
        [congruence |].
      eexists. split; [| reflexivity].
      exists tb, tc, ta.
      split; [reflexivity | split; [exact Hb | split; [exact Hc |]]].
      split; reflexivity.
    + rewrite (date_loop_rev_none _ (has_date_false _ Ed)).
      eexists. split; [| reflexivity].
      exists tb, tc, ta.
      split; [reflexivity | split; [exact Hb | split; [exact Hc |]]].
      split; reflexivity.
Qed.

Lemma rows_loop_shape (rows : list row) :
  forall (posts : list post) (w : world),
    exists new w',
      rows_loop rows posts w = (Ret (posts ++ new), w')
      /\ only_clock_read w w'
      /\ Forall2 from_row new (titled_rows rows)
      /\ ticks w'
         = (ticks w
            + List.length (filter (fun cells => negb (has_date cells))
                             (titled_rows rows)))%nat.
Proof.
  induction rows as [|cells rows IH]; intros posts w.
  - exists [], w. cbn. unfold ret. rewrite app_nil_r.
    split; [reflexivity | split; [apply only_clock_read_refl |]].
    split; [constructor | cbn; lia].
  - cbn [rows_loop titled_rows filter]. fold (titled_rows rows).
    destruct (parse_row_tests cells w) as [Hf Ht].
    destruct (has_title cells) eqn:E.
    + destruct (Ht eq_refl) as [p [Hp Ep]].
      rewrite (bind_ret_run _ _ _ _ _ Ep).
      destruct (IH (posts ++ [p]) (if has_date cells then w else tick w))
        as [new [w' [El [Hw [Hall Hticks]]]]].
      exists (p :: new), w'. rewrite <- app_assoc in El.
      split; [exact El |].
      split.
      { apply (only_clock_read_trans w
                 (if has_date cells then w else tick w) w'); [| exact Hw].
        destruct (has_date cells);
          [apply only_clock_read_refl | apply only_clock_read_tick]. }
      split; [now constructor |].
      rewrite Hticks. cbn [filter].
      destruct (has_date cells); cbn [negb List.length tick ticks]; lia.
    + rewrite (bind_ret_run _ _ _ _ _ (Hf eq_refl)). apply IH.
Qed.

(** X3. The posts of a document stand one for one, and in the same order,
    for the rows that have 3 cells at least and a cell fit for a title: each
    post has the title and the link of the first title cell of its row.  No
    row gives two posts and no post comes from nowhere. *)
Theorem parse_board_posts_in_row_order (html : pystr) (sp : soup)
  (w : world) :
  html <> [] -> BeautifulSoup html = Some sp ->
  exists posts w',
    parse_board_posts (Some html) w = (Ret posts, w')
    /\ Forall2 from_row posts
         (titled_rows (first_nonempty (row_candidates sp)))
    /\ (List.length posts
        <= List.length (first_nonempty (row_candidates sp)))%nat.
Proof.
  intros Hne E. rewrite (parse_rows_choice html sp w Hne E).
  destruct (rows_loop_shape (first_nonempty (row_candidates sp)) [] w)
    as [new [w' [El [_ [Hall _]]]]].
  exists new, w'. split; [exact El | split; [exact Hall |]].
  rewrite (Forall2_length Hall). apply filter_length_le.
Qed.

(** X4. The parse reads the clock once for each row that gives a post and has
    no cell fit for a date, and at no other time; when every such row has a
    date cell, the parse leaves the world as it was. *)
Theorem parse_board_posts_clock_reads (html : pystr) (sp : soup)
  (w : world) :
  html <> [] -> BeautifulSoup html = Some sp ->
  exists posts w',
    parse_board_posts (Some html) w = (Ret posts, w')
    /\ only_clock_read w w'
    /\ ticks w'
       = (ticks w
          + List.length
              (filter (fun cells => negb (has_date cells))
                 (titled_rows (first_nonempty (row_candidates sp)))))%nat
    /\ (Forall (fun cells => has_date cells = true)
          (titled_rows (first_nonempty (row_candidates sp)))
        -> w' = w).
Proof.
  intros Hne E. rewrite (parse_rows_choice html sp w Hne E).
  destruct (rows_loop_shape (first_nonempty (row_candidates sp)) [] w)
    as [new [w' [El [Hw [_ Hticks]]]]].
  exists new, w'.
  split; [exact El | split; [exact Hw | split; [exact Hticks |]]].
  intros Hall.
  assert (Hz : filter (fun cells => negb (has_date cells))
                 (titled_rows (first_nonempty (row_candidates sp))) = []).
  { clear Hticks. induction Hall as [|cells l Hc Hl IH]; [reflexivity |].
    cbn [filter]. rewrite Hc. exact IH. }
  rewrite Hz in Hticks. cbn [List.length] in Hticks.
  destruct Hw as [Hc [Hn [Ht _]]].
  destruct w, w'. cbn in *. subst. f_equal. lia.
Qed.

(** X5. The date loop does not leave the title cell out: when the title cell
    is also fit for a date and no cell after it is, the title and the date
    of the post are the same text. *)
Theorem parse_row_title_as_date (before : list cell) (c : cell)
  (after : list cell) (w : world) :
  (3 <= List.length (before ++ c :: after))%nat ->
  Forall (fun x => ~ title_like (get_text x)) before ->
  title_like (get_text c) ->
  date_like (get_text c) ->
  Forall (fun x => ~ date_like (get_text x)) after ->
  parse_row (before ++ c :: after) w
  = (Ret (Some {| title := get_text c; date := get_text c;
                  link := link_of c |}), w).
Proof.
  intros Hlen Hb Hc Hd Ha.
  rewrite (parse_row_post before c after w Hlen Hb Hc).
  rewrite (date_loop_rev_found before c after Hd Ha).
  destruct (get_text c) eqn:Et; [| reflexivity].
  exfalso. now apply (date_like_nonempty _ Hd).
Qed.

End RowsInOrder.

Lemma parse_board_posts_in_row_order_witness :
  exists posts w',
    parse_board_posts (R := sample_runtime sample_board)
      (Some (text ok_response)) may_day = (Ret posts, w')
    /\ Forall2 (from_row (R := sample_runtime sample_board)) posts
         (titled_rows (R := sample_runtime sample_board)
            (first_nonempty (row_candidates (one_table sample_board))))
    /\ (List.length posts
        <= List.length
             (first_nonempty (row_candidates (one_table sample_board))))%nat.
Proof.
  apply (parse_board_posts_in_row_order (R := sample_runtime sample_board)
           (text ok_response) (one_table sample_board) may_day).
  - vm_compute. discriminate.
  - reflexivity.
Defined.

Lemma parse_board_posts_clock_reads_witness :
  exists posts w',
    parse_board_posts (R := sample_runtime [undated_row])
      (Some (text ok_response)) may_day = (Ret posts, w')
    /\ only_clock_read may_day w'
    /\ ticks w' = 1%nat.
Proof.
  destruct (parse_board_posts_clock_reads (R := sample_runtime [undated_row])
              (text ok_response) (one_table [undated_row]) may_day)
    as [posts [w' [Ep [Hw [Ht _]]]]].
  - vm_compute. discriminate.
  - reflexivity.
  - exists posts, w'. split; [exact Ep | split; [exact Hw |]].
    rewrite Ht. vm_compute. reflexivity.
Defined.

Lemma parse_row_title_as_date_witness :
  parse_row (R := sample_runtime []) dated_title_row may_day
  = (Ret (Some {| title := dated_title; date := dated_title; link := [] |}),
     may_day).
Proof.
  apply (parse_row_title_as_date (R := sample_runtime [])
           [text_cell example_index; text_cell [50%N]]
           (text_cell dated_title) [] may_day).
  - vm_compute. lia.
  - constructor; [apply index_not_title_like |].
    constructor; [| constructor].
    apply title_test_false_iff. vm_compute. reflexivity.
  - apply title_test_iff. vm_compute. reflexivity.
  - apply date_test_iff. vm_compute. reflexivity.
  - constructor.
Defined.

(** ** The today check as a comparison of dates *)

Lemma contains_same_length (s sub : pystr) :
  List.length s = List.length sub ->
  (contains s sub = true <-> s = sub).
Proof.
  intros Hlen. rewrite contains_iff. split.
  - intros [before [after E]].
    assert (Hb : List.length before = 0%nat /\ List.length after = 0%nat).
    { rewrite E in Hlen. rewrite !length_app in Hlen. lia. }
    destruct Hb as [Hb Ha]. apply length_zero_iff_nil in Hb, Ha. subst.
    cbn [app]. now rewrite app_nil_r.
  - intros ->. exists [], []. cbn [app]. now rewrite app_nil_r.
Qed.

Lemma contains_refl (s : pystr) : contains s s = true.
Proof. now apply contains_same_length. Qed.

Lemma strftime_Ymd_digits (d : datetime) :
  strftime_Ymd d
  = [digit (year d / 1000); digit (year d / 100); digit (year d / 10);
     digit (year d); 45%N; digit (month d / 10); digit (month d); 45%N;
     digit (day d / 10); digit (day d)].
Proof. reflexivity. Qed.

Lemma mod10_lt (n : N) : (n mod 10 < 10)%N.
Proof. apply N.mod_lt. discriminate. Qed.

Lemma pad4_eq (y y' : N) :
  (y <= 9999)%N -> (y' <= 9999)%N -> pad4 y = pad4 y' -> y = y'.
Proof.
  intros Hy Hy' H.
  assert (E' : pad4 y' = [(48 + (y' / 1000) mod 10)%N;
                          (48 + (y' / 100) mod 10)%N;
                          (48 + (y' / 10) mod 10)%N;
                          (48 + y' mod 10)%N]) by reflexivity.
  rewrite E' in H.
  apply pad4_inj in H; try apply mod10_lt; [| exact Hy].
  apply pad4_inj in E'; try apply mod10_lt; [| exact Hy'].
  congruence.
Qed.

Lemma pad2_eq (m m' : N) :
  (m <= 99)%N -> (m' <= 99)%N -> pad2 m = pad2 m' -> m = m'.
Proof.
  intros Hm Hm' H.
  assert (E' : pad2 m' = [(48 + (m' / 10) mod 10)%N; (48 + m' mod 10)%N])
    by reflexivity.
  rewrite E' in H.
  apply pad2_inj in H; try apply mod10_lt; [| exact Hm].
  apply pad2_inj in E'; try apply mod10_lt; [| exact Hm'].
  congruence.
Qed.

Lemma strftime_Ymd_inj (a b : datetime) :
  four_digit_date a -> four_digit_date b ->
  strftime_Ymd a = strftime_Ymd b -> same_day a b.
Proof.
  intros [Hya [Hma Hda]] [Hyb [Hmb Hdb]] H.
  rewrite !strftime_Ymd_digits in H.
  assert (H4 : pad4 (year a) = pad4 (year b)) by (unfold pad4; congruence).
  assert (Hm2 : pad2 (month a) = pad2 (month b))
    by (unfold pad2; congruence).
  assert (Hd2 : pad2 (day a) = pad2 (day b)) by (unfold pad2; congruence).
  apply pad4_eq in H4; try lia.
  apply pad2_eq in Hm2; try lia.
  apply pad2_eq in Hd2; try lia.
  repeat split; assumption.
Qed.

(** X6. On a date written [YYYY-MM-DD] and nothing else, the today check is
    the comparison of two dates: it answers [True] exactly when the year,
    the month and the day are those of the clock. *)
Theorem is_today_post_calendar (w : world) (d : datetime) :
  four_digit_date (clock w (ticks w)) -> four_digit_date d ->
  (is_today_post (VStr (strftime_Ymd d)) w = (Ret true, tick w)
   <-> same_day d (clock w (ticks w))).
Proof.
  intros Hnow Hd. rewrite is_today_post_run. split.
  - intros H. apply ret_pair_inv in H.
    apply contains_same_length in H; [| reflexivity].
    now apply strftime_Ymd_inj.
  - intros [Hy [Hm Hday]].
    assert (E : strftime_Ymd d = strftime_Ymd (clock w (ticks w))).
    { unfold strftime_Ymd. now rewrite Hy, Hm, Hday. }
    rewrite E, contains_refl. reflexivity.
Qed.

Lemma is_today_post_calendar_witness :
  is_today_post (VStr (strftime_Ymd (sample_datetime 2024 5 1))) may_day
  = (Ret true, tick may_day).
Proof.
  apply (is_today_post_calendar may_day (sample_datetime 2024 5 1)).
  - unfold four_digit_date. cbn. lia.
  - unfold four_digit_date. cbn. lia.
  - repeat split.
Defined.

(** ** Rows without a date *)

(** X7. A row that gives a post and has no cell fit for a date is dated by
    the clock, read once; as long as the clock stays on that day, the today
    check of the post answers [True]. *)
Theorem undated_post_is_today (R : Runtime) (cells : row) (w w' : world)
  (p : post) :
  parse_row cells w = (Ret (Some p), w') ->
  (forall c, In c cells -> ~ date_like (get_text c)) ->
  w' = tick w
  /\ forall w2,
      strftime_Ymd (clock w2 (ticks w2)) = strftime_Ymd (clock w (ticks w)) ->
      is_today_post (VStr (date p)) w2 = (Ret true, tick w2).
Proof.
  intros Hp Hno.
  destruct (Nat.ltb_spec (List.length cells) 3) as [Hlen | Hlen].
  { rewrite parse_row_short in Hp by assumption. discriminate. }
  destruct (first_title_cell cells) as [Hnt | [tb [tc [ta [E [Hb Hc]]]]]].
  { rewrite parse_row_no_title in Hp by assumption. discriminate. }
  subst cells. rewrite (parse_row_post tb tc ta w Hlen Hb Hc) in Hp.
  rewrite (date_loop_rev_none _ Hno) in Hp. injection Hp as <- <-.
  split; [reflexivity |]. intros w2 E.
  rewrite is_today_post_run. cbn [date]. rewrite E, contains_refl.
  reflexivity.
Qed.

Lemma undated_post_is_today_witness :
  exists p,
    parse_row (R := sample_runtime []) undated_row may_day
    = (Ret (Some p), tick may_day)
    /\ is_today_post (VStr (date p)) (tick may_day)
       = (Ret true, tick (tick may_day)).
Proof.
  exists {| title := example_title;
            date := strftime_Ymd (sample_datetime 2024 5 1); link := [] |}.
  assert (Hp : parse_row (R := sample_runtime []) undated_row may_day
               = (Ret (Some {| title := example_title;
                               date := strftime_Ymd (sample_datetime 2024 5 1);
                               link := [] |}), tick may_day))
    by (vm_compute; reflexivity).
  split; [exact Hp |].
  apply (undated_post_is_today (sample_runtime []) undated_row may_day
           (tick may_day) _ Hp).
  - apply has_date_false. vm_compute. reflexivity.
  - reflexivity.
Defined.

(** ** The loop over the posts *)

Section Loop.

Context {R : Runtime}.

(** X8. The two counters of the loop.  [today_posts_count] grows by the number
    of today checks that answered [True]; [notifications_sent] never goes
    down and grows by no more than the number of POSTs sent; there are no
    more POSTs than posts of today, and no more posts of today than posts.
    The loop does not raise. *)
Theorem posts_loop_counters (self : SeoulMetroMonitor) (posts : list post) :
  forall (notifications_sent today_posts_count : nat) (w : world),
    exists sent' today' w' t,
      posts_loop self posts notifications_sent today_posts_count w
      = (Ret (sent', today'), w')
      /\ trace w' = trace w ++ t
      /\ today' = (today_posts_count + today_hits t)%nat
      /\ (notifications_sent <= sent')%nat
      /\ (sent' - notifications_sent <= List.length (posted t))%nat
      /\ (List.length (posted t) <= today_hits t)%nat
      /\ (today_hits t <= List.length posts)%nat.
Proof.
  induction posts as [|p posts IH]; intros ns tc w.
  - exists ns, tc, w, []. cbn. unfold ret. rewrite app_nil_r.
    repeat split; lia.
  - cbn [posts_loop].
    rewrite (bind_ret_run _ _ _ _ _ (is_today_post_run (date p) w)).
    unfold bind at 1. cbn [log].
    destruct (contains (date p) (strftime_Ymd (clock w (ticks w))));
      cbn [negb].
    + destruct (check_keywords_loop_shape (lower (title p)) (keywords self))
        as [Ek | [k Ek]]; fold (check_keywords self (title p)) in Ek;
        rewrite Ek; unfold bind at 1; cbn [log].
      * destruct (IH ns (S tc)
                    (logged (Call_check_keywords (title p) (false, None))
                       (logged (Call_is_today_post (date p) true) (tick w))))
          as [s' [t' [w' [t [E [Ht [Htc [H1 [H2 [H3 H4]]]]]]]]]].
        exists s', t', w',
          (Call_is_today_post (date p) true
           :: Call_check_keywords (title p) (false, None) :: t).
        split; [exact E |]. cbn [logged tick trace] in Ht.
        split; [rewrite Ht, <- !app_assoc; reflexivity |].
        unfold today_hits, posted in *.
        cbn [filter flat_map app List.length]. repeat split; lia.
      * unfold bind at 1. cbn [log].
        set (w2 := logged (Call_send_webhook p (Some k))
                     (logged (Call_check_keywords (title p) (true, Some k))
                        (logged (Call_is_today_post (date p) true) (tick w)))).
        destruct (send_webhook_run self p (Some k) w2) as [b Eb].
        rewrite (bind_ret_run _ _ _ _ _ Eb).
        set (w3 := logged _ (tick w2)).
        assert (IH' : exists s' t' w' t,
                   (if b then posts_loop self posts (S ns) (S tc)
                    else posts_loop self posts ns (S tc)) w3
                   = (Ret (s', t'), w')
                   /\ trace w' = trace w3 ++ t
                   /\ t' = (S tc + today_hits t)%nat
                   /\ (ns <= s')%nat
                   /\ (s' - ns <= S (List.length (posted t)))%nat
                   /\ (List.length (posted t) <= today_hits t)%nat
                   /\ (today_hits t <= List.length posts)%nat).
        { destruct b.
          - destruct (IH (S ns) (S tc) w3)
              as [s' [t' [w' [t [E [Ht [Htc [H1 [H2 [H3 H4]]]]]]]]]].
            exists s', t', w', t. repeat split; try assumption; lia.
          - destruct (IH ns (S tc) w3)
              as [s' [t' [w' [t [E [Ht [Htc [H1 [H2 [H3 H4]]]]]]]]]].
            exists s', t', w', t. repeat split; try assumption; lia. }
        destruct IH' as [s' [t' [w' [t [E [Ht [Htc [H1 [H2 [H3 H4]]]]]]]]]].
        exists s', t', w',
          (Call_is_today_post (date p) true
           :: Call_check_keywords (title p) (true, Some k)
           :: Call_send_webhook p (Some k)
           :: Request (POST (webhook_url self)
                         (build_payload p (Some k) (clock w (S (ticks w)))))
           :: t).
        split; [exact E |].
        subst w3 w2. cbn [logged tick trace clock ticks] in Ht.
        split; [rewrite Ht, <- !app_assoc; reflexivity |].
        unfold today_hits, posted in *.
        cbn [filter flat_map app List.length]. repeat split; lia.
    + destruct (IH ns tc (logged (Call_is_today_post (date p) false) (tick w)))
        as [s' [t' [w' [t [E [Ht [Htc [H1 [H2 [H3 H4]]]]]]]]]].
      exists s', t', w', (Call_is_today_post (date p) false :: t).
      split; [exact E |]. cbn [logged tick trace] in Ht.
      split; [rewrite Ht, <- !app_assoc; reflexivity |].
      unfold today_hits, posted in *.
      cbn [filter flat_map app List.length]. repeat split; lia.
Qed.

(** With a clock that stays on one day, a gated log holds one POST for
    each post to be notified, in the order of the posts. *)
Lemma gated_posted (self : SeoulMetroMonitor) (clk : nat -> datetime)
  (today : pystr) (ps : list post) (t : list event) :
  (forall n, strftime_Ymd (clk n) = today) ->
  gated_log self clk ps t ->
  map summary (posted t)
  = map (expected_summary self) (filter (notifiable self today) ps).
Proof.
  intros Hday.
  induction 1 as [| p ps t n Hd Hg IH | p ps t n Hd Hk Hg IH
                  | p ps t n m k Hd Hk Hg IH];
    try rewrite Hday in Hd; cbn [filter].
  - reflexivity.
  - unfold notifiable at 1. rewrite Hd.
    cbn [andb posted flat_map app]. exact IH.
  - unfold notifiable at 1. rewrite Hd, Hk.
    cbn [andb fst posted flat_map app]. exact IH.
  - unfold notifiable at 1. rewrite Hd, Hk.
    cbn [andb fst posted flat_map app map].
    fold (posted t). rewrite IH. f_equal.
    unfold summary, expected_summary, build_payload.
    cbn [json_title json_date json_link json_keyword]. now rewrite Hk.
Qed.

Lemma gated_requests (self : SeoulMetroMonitor) (clk : nat -> datetime)
  (ps : list post) (t : list event) :
  gated_log self clk ps t ->
  forall r, In (Request r) t -> exists json, r = POST (webhook_url self) json.
Proof.
  induction 1 as [| p ps t n Hd Hg IH | p ps t n Hd Hk Hg IH
                  | p ps t n m k Hd Hk Hg IH]; intros r Hin.
  - destruct Hin.
  - destruct Hin as [E | Hin]; [discriminate | now apply IH].
  - destruct Hin as [E | [E | Hin]]; try discriminate. now apply IH.
  - destruct Hin as [E | [E | [E | [E | Hin]]]]; try discriminate.
    + injection E as <-. eauto.
    + now apply IH.
Qed.

(** The log of a run: the GET, then the gated log of the loop over the
    posts parsed from what was fetched. *)
Lemma monitor_posts_log (self : SeoulMetroMonitor) (w : world) :
  let w1 := logged (Request (GET (url self))) (tick w) in
  exists posts t,
    trace (snd (monitor_posts self w))
    = trace w ++ Request (GET (url self)) :: t
    /\ gated_log self (clock w) posts t
    /\ (posts = []
        \/ exists html w2,
            fetch_board_content self (tick w) = (Ret (Some html), w1)
            /\ parse_board_posts (Some html) w1 = (Ret posts, w2)).
Proof.
  intros w1.
  destruct (monitor_posts_cases self w)
    as [hc [Ef [[_ Hm] | [[_ [html [_ [_ [_ Hm]]]]]
                         | [Enc [posts [w2 [w3 [t [Ep [Hw2 [Hm [Ht [Hg _]]]]]]]]]]]]]].
  - exists [], []. rewrite Hm. cbn [snd logged tick trace].
    split; [reflexivity | split; [constructor | now left]].
  - exists [], []. rewrite Hm. cbn [snd logged tick trace].
    split; [reflexivity | split; [constructor | now left]].
  - exists posts, t. rewrite Hm. cbn [snd]. rewrite Ht.
    destruct Hw2 as [_ [_ [Htr _]]]. rewrite Htr.
    cbn [logged tick trace]. rewrite <- app_assoc.
    split; [reflexivity | split; [exact Hg |]].
    right. destruct hc as [html|]; [| discriminate Enc].
    exists html, w2. split; assumption.
Qed.

(** X9. When the clock stays on one day during a run, the POSTs of the run
    are, in order, one for each post the parse returned whose date holds
    that day's text and whose title matches a keyword, and no other; each
    carries the title, the date and the link of its post and the keyword
    matched.  What the webhook answers changes nothing to it: a POST that
    fails does not stop the following ones, and a post met twice is sent
    twice.  When the fetch gives no content, the GET is all the run logs. *)
Theorem monitor_posts_sends_exactly (self : SeoulMetroMonitor) (w : world)
  (today : pystr) :
  (forall n, strftime_Ymd (clock w n) = today) ->
  let w1 := logged (Request (GET (url self))) (tick w) in
  (forall html posts w2,
      fetch_board_content self (tick w) = (Ret (Some html), w1) ->
      parse_board_posts (Some html) w1 = (Ret posts, w2) ->
      exists t,
        trace (snd (monitor_posts self w))
        = trace w ++ Request (GET (url self)) :: t
        /\ map summary (posted t)
           = map (expected_summary self)
               (filter (notifiable self today) posts))
  /\ (fetch_board_content self (tick w) = (Ret None, w1) ->
      trace (snd (monitor_posts self w))
      = trace w ++ [Request (GET (url self))]).
Proof.
  intros Hday w1.
  destruct (monitor_posts_cases self w)
    as [hc [Ef [[Enc Hm] | [[_ [h [_ [_ [Ep _]]]]]
                           | [Enc [ps [w2' [w3 [t [Ep [Hw2 [Hm [Ht [Hg _]]]]]]]]]]]]]];
    fold w1 in Ef, Ep || fold w1 in Ef; split.
  - intros html posts w2 Ef' Ep. rewrite Ef in Ef'. injection Ef' as ->.
    destruct html as [|c html]; [| discriminate Enc].
    cbn in Ep. injection Ep as <- <-.
    exists []. rewrite Hm. split; reflexivity.
  - intros _. rewrite Hm. reflexivity.
  - intros html posts w2 Ef' Ep'. rewrite Ef in Ef'. injection Ef' as ->.
    rewrite Ep in Ep'. discriminate.
  - intros Ef'. rewrite Ef in Ef'. injection Ef' as ->.
    cbn in Ep. discriminate.
  - intros html posts w2 Ef' Ep'. rewrite Ef in Ef'. injection Ef' as ->.
    rewrite Ep in Ep'. injection Ep' as -> ->.
    exists t. rewrite Hm. cbn [snd]. rewrite Ht.
    destruct Hw2 as [_ [_ [Htr _]]]. rewrite Htr.
    unfold w1. cbn [logged tick trace]. rewrite <- app_assoc.
    split; [reflexivity |].
    now apply (gated_posted self (clock w)).
  - intros Ef'. rewrite Ef in Ef'. injection Ef' as ->. discriminate Enc.
Qed.

(** X10. A run started with a webhook URL sends its first request to the
    board, a GET, and every request after it is a POST to that webhook URL:
    the board is fetched once, and nothing is sent anywhere else. *)
Theorem main_requests (webhook : pystr) (w : world) :
  webhook <> [] ->
  exists t,
    trace (snd (main (Some webhook) w))
    = trace w ++ Request (GET board_url) :: t
    /\ forall r, In (Request r) t -> exists json, r = POST webhook json.
Proof.
  intros Hne. unfold main.
  destruct webhook as [|c webhook]; [congruence |]. cbn [truthy negb].
  destruct (monitor_posts_log (init (c :: webhook)) w)
    as [posts [t [Ht [Hg _]]]].
  exists t. split; [exact Ht |].
  exact (gated_requests _ _ _ _ Hg).
Qed.

End Loop.

Lemma monitor_posts_sends_exactly_witness :
  exists t,
    trace (snd (monitor_posts (R := sample_runtime sample_board)
                  (init sample_hook) board_day))
    = trace board_day ++ Request (GET board_url) :: t
    /\ map summary (posted t)
       = map (expected_summary (R := sample_runtime sample_board)
                (init sample_hook))
           (filter (notifiable (R := sample_runtime sample_board)
                      (init sample_hook) example_date) sample_posts).
Proof.
  apply (proj1 (monitor_posts_sends_exactly
                  (R := sample_runtime sample_board)
                  (init sample_hook) board_day example_date
                  (fun n => eq_refl))
           (text ok_response) sample_posts
           (logged (Request (GET board_url)) (tick board_day))).
  - vm_compute. reflexivity.
  - vm_compute. reflexivity.
Defined.

Lemma main_requests_witness :
  exists t,
    trace (snd (main (R := sample_runtime sample_board) (Some sample_hook)
                  board_day))
    = trace board_day ++ Request (GET board_url) :: t
    /\ forall r, In (Request r) t -> exists json, r = POST sample_hook json.
Proof.
  apply (main_requests (R := sample_runtime sample_board) sample_hook
           board_day).
  vm_compute. discriminate.
Defined.

(** ** The configured keywords *)

Lemma substring_trans (a b c : pystr) :
  substring a b -> substring b c -> substring a c.
Proof.
  intros [b1 [b2 ->]] [c1 [c2 ->]].
  exists (c1 ++ b1), (b2 ++ c2). now rewrite <- !app_assoc.
Qed.

(** X11. With the keywords of [__init__], a title is matched exactly when
    ["장애인"], ["집회"] or ["시위"] occurs in its lower-cased form: the long
    first keyword holds ["장애인"], so it never decides whether a post is
    notified, only which keyword is reported. *)
Theorem configured_keywords_decide (R : Runtime) (webhook title : pystr) :
  caseless_hangul R ->
  (fst (check_keywords (init webhook) title) = true
   <-> substring example_keyword (lower title)
       \/ substring keyword_jiphoe (lower title)
       \/ substring keyword_siwi (lower title)).
Proof.
  intros H. unfold check_keywords, init, keywords, configured_keywords.
  set (tl := lower title). cbn [check_keywords_loop]. lower_hangul H.
  unfold example_keyword, keyword_jiphoe, keyword_siwi.
  rewrite <- !contains_iff.
  match goal with
  | |- context [if contains tl ?L then _ else
                  if contains tl ?A then _ else _] =>
    assert (HL : contains tl L = true -> contains tl A = true)
  end.
  { rewrite !contains_iff. apply substring_trans.
    exists (lit "특정 "), (lit " 단체 집회시위"). vm_compute. reflexivity. }
  repeat match goal with
         | |- context [if contains tl ?X then _ else _] =>
           destruct (contains tl X) eqn:?
         end; cbn [fst]; intuition congruence.
Qed.

Lemma configured_keywords_decide_witness :
  fst (check_keywords (R := sample_runtime []) (init [])
         (lit "지하철 시위 관련 안내")) = true.
Proof.
  apply (configured_keywords_decide (sample_runtime []) []
           (lit "지하철 시위 관련 안내") (ascii_lower_caseless [])).
  right. right. apply contains_iff. vm_compute. reflexivity.
Defined.

(** ** What a notification holds *)

Section Notifications.

Context {R : Runtime}.

Lemma gated_payloads (self : SeoulMetroMonitor) (clk : nat -> datetime)
  (ps : list post) (t : list event) :
  gated_log self clk ps t ->
  forall json,
    In json (posted t) ->
    exists p k n m,
      In p ps
      /\ contains (date p) (strftime_Ymd (clk n)) = true
      /\ check_keywords self (title p) = (true, Some k)
      /\ json = build_payload p (Some k) (clk m).
Proof.
  induction 1 as [| p ps t n Hd Hg IH | p ps t n Hd Hk Hg IH
                  | p ps t n m k Hd Hk Hg IH]; intros json Hin;
    unfold posted in Hin; cbn [flat_map app] in Hin;
    try change (In json (posted t)) in Hin;
    try change (In json (build_payload p (Some k) (clk m) :: posted t))
      in Hin.
  - destruct Hin.
  - destruct (IH json Hin) as [q [k [n' [m [Hq Hrest]]]]].
    exists q, k, n', m. split; [now right | exact Hrest].
  - destruct (IH json Hin) as [q [k [n' [m [Hq Hrest]]]]].
    exists q, k, n', m. split; [now right | exact Hrest].
  - destruct Hin as [<- | Hin].
    + exists p, k, n, m. repeat split; auto. now left.
    + destruct (IH json Hin) as [q [k' [n' [m' [Hq Hrest]]]]].
      exists q, k', n', m'. split; [now right | exact Hrest].
Qed.

(** X12. Every JSON object a run posts names a keyword of the list whose
    lower-cased form occurs in the lower-cased title it carries; its date
    holds the text of a date the clock gave; its title has more than 5
    characters; its link is empty or starts with [http]. *)
Theorem notifications_are_justified (self : SeoulMetroMonitor) (w : world) :
  exists t,
    trace (snd (monitor_posts self w))
    = trace w ++ Request (GET (url self)) :: t
    /\ forall json,
        In json (posted t) ->
        (exists k, json_keyword json = Some k
                   /\ In k (keywords self)
                   /\ substring (lower k) (lower (json_title json)))
        /\ (exists n, substring (strftime_Ymd (clock w n)) (json_date json))
        /\ (5 < List.length (json_title json))%nat
        /\ (json_link json = []
            \/ startswith (json_link json) (lit "http") = true).
Proof.
  destruct (monitor_posts_log self w) as [posts [t [Ht [Hg Hp]]]].
  exists t. split; [exact Ht |]. intros json Hin.
  destruct (gated_payloads _ _ _ _ Hg json Hin)
    as [p [k [n [m [Hpin [Hd [Hk ->]]]]]]].
  cbn [build_payload json_keyword json_title json_date json_link].
  assert (Hinv : exists P, post_invariant P p).
  { destruct Hp as [-> | [html [w2 [_ Ep]]]]; [destruct Hpin |].
    destruct (parse_board_posts_cases (Some html)
                (logged (Request (GET (url self))) (tick w)))
      as [[posts' [w' [Ep' [_ Hall]]]] | [h [_ [_ [_ Ep']]]]];
      rewrite Ep in Ep'; [| discriminate].
    injection Ep' as <- <-. rewrite Forall_forall in Hall.
    eexists. exact (Hall p Hpin). }
  destruct Hinv as [P [[_ [Hlen _]] [_ Hlink]]].
  split; [| split; [| split; [exact Hlen | exact Hlink]]].
  - exists k. split; [reflexivity |].
    unfold check_keywords in Hk. apply check_keywords_loop_match in Hk.
    destruct Hk as [i [Hi [Hc _]]]. split.
    + now apply nth_error_In in Hi.
    + now apply contains_iff.
  - exists n. now apply contains_iff.
Qed.

End Notifications.

Lemma parse_board_posts_row_source_witness :
  select_rows (one_table sample_board) possible_selectors []
  = first_nonempty (map (select (one_table sample_board)) possible_selectors)
  /\ parse_board_posts (R := sample_runtime sample_board)
       (Some (text ok_response)) may_day
     = rows_loop (R := sample_runtime sample_board)
         (first_nonempty (row_candidates (one_table sample_board))) []
         may_day.
Proof.
  destruct (parse_board_posts_row_source (R := sample_runtime sample_board)
              (text ok_response) (one_table sample_board) may_day)
    as [Hs Hp].
  split.
  - apply Hs. discriminate.
  - apply Hp; [vm_compute; discriminate | reflexivity].
Defined.

Lemma notifications_are_justified_witness :
  In example_json (posted (tl sample_log))
  /\ exists k,
      json_keyword example_json = Some k
      /\ In k (keywords (init sample_hook))
      /\ substring (lower (Runtime := sample_runtime sample_board) k)
           (lower (Runtime := sample_runtime sample_board)
              (json_title example_json)).
Proof.
  destruct (notifications_are_justified (R := sample_runtime sample_board)
              (init sample_hook) board_day) as [t [Ht Hall]].
  vm_compute in Ht. injection Ht as Ht.
  assert (Hin : In example_json (posted (tl sample_log)))
    by (vm_compute; tauto).
  split; [exact Hin |].
  assert (Et : tl sample_log = t) by (rewrite <- Ht; vm_compute; reflexivity).
  rewrite Et in Hin. exact (proj1 (Hall example_json Hin)).
Defined.
